(** * Wedding Newspaper API: access codes, checkout and webhook

    A shallow embedding of the Express backend ([server.js], in its two
    variants) and of the handlers of the React wizard ([App.jsx]) that talk
    to it, together with the properties of the access-code lifecycle.

    JavaScript strings are modelled by [string]: one [ascii] stands for one
    UTF-16 code unit below 256, so that [String.length] is the [.length] of
    the JavaScript string.  Integral numbers are [Z].  Objects are finite
    maps from property names to values, with [Object.prototype] behind
    them. *)

From Stdlib Require Import ZArith String Ascii List Lia.
From stdpp Require Import base strings pretty gmap list.

Open Scope Z_scope.

(* ===================================================================== *)
(** ** The fragment of JavaScript the sources use *)
(* ===================================================================== *)

Module JS.

(** *** Strings *)

(** [s.length] *)
Definition len (s : string) : Z := Z.of_nat (String.length s).

(** [s.startsWith(search)] *)
Definition startsWith (s search : string) : bool := String.prefix search s.

Definition clamp (lo hi x : Z) : Z := Z.max lo (Z.min x hi).

(** [s.substring(start, end)]: both indices are clamped to [0, s.length]
    and swapped when out of order. *)
Definition substring (s : string) (start end_ : Z) : string :=
  let a := clamp 0 (len s) start in
  let b := clamp 0 (len s) end_ in
  String.substring (Z.to_nat (Z.min a b)) (Z.to_nat (Z.max a b - Z.min a b)) s.

(** [s.slice(start)]: a negative [start] counts from the end. *)
Definition slice (s : string) (start : Z) : string :=
  let from := if start <? 0 then Z.max (len s + start) 0
              else Z.min start (len s) in
  String.substring (Z.to_nat from) (Z.to_nat (len s - from)) s.

Definition is_lower (c : ascii) : bool :=
  let n := nat_of_ascii c in (97 <=? n)%nat && (n <=? 122)%nat.
Definition is_upper (c : ascii) : bool :=
  let n := nat_of_ascii c in (65 <=? n)%nat && (n <=? 90)%nat.
Definition is_digit (c : ascii) : bool :=
  let n := nat_of_ascii c in (48 <=? n)%nat && (n <=? 57)%nat.

Definition upper_char (c : ascii) : ascii :=
  if is_lower c then ascii_of_nat (nat_of_ascii c - 32) else c.

(** [s.toUpperCase()] on the ASCII letters; the sources apply it to the
    digits and lower-case letters of a radix-36 rendering and to typed
    input. Code units from 128 on are left as they are: the function is
    that of JavaScript on ASCII strings only (there [toUpperCase] turns
    code unit 223 into two letters and 224 to 254 into their capitals), and
    a property of typed input assumes the input is ASCII. *)
Fixpoint toUpperCase (s : string) : string :=
  match s with
  | EmptyString => EmptyString
  | String c s' => String (upper_char c) (toUpperCase s')
  end.

(** White space and line terminators among the code units below 256:
    TAB, LF, VT, FF, CR, SP and NBSP. *)
Definition is_space (c : ascii) : bool :=
  match nat_of_ascii c with
  | 9 | 10 | 11 | 12 | 13 | 32 | 160 => true
  | _ => false
  end%nat.

Fixpoint trimStart (s : string) : string :=
  match s with
  | EmptyString => EmptyString
  | String c s' => if is_space c then trimStart s' else s
  end.

Definition trimEnd (s : string) : string :=
  String.rev (trimStart (String.rev s)).

(** [s.trim()] *)
Definition trim (s : string) : string := trimEnd (trimStart s).

(** [n.toString()] for an integral number below 10^21 in magnitude: the
    decimal digits, with a leading minus sign below zero. *)
Definition Number_toString (n : Z) : string := pretty n.

(** *** Values *)

#[local] Unset Elimination Schemes.
Inductive value : Type :=
| VUndefined
| VNull
| VBool (b : bool)
| VNum (n : Z)
| VStr (s : string)
| VBuffer (bytes : string)              (* a Node.js Buffer *)
| VObj (props : gmap string value)      (* an ordinary object *)
| VFun (name : string)                  (* a built-in function object *)
| VObjectPrototype.                     (* Object.prototype itself *)
#[local] Set Elimination Schemes.

(** ToBoolean *)
Definition truthy (v : value) : bool :=
  match v with
  | VUndefined | VNull => false
  | VBool b => b
  | VNum n => negb (n =? 0)
  | VStr s => negb (String.eqb s "")
  | VBuffer _ | VObj _ | VFun _ | VObjectPrototype => true
  end.

Definition nullish (v : value) : bool :=
  match v with VUndefined | VNull => true | _ => false end.

(** [a || b] *)
Definition or_else (a b : value) : value := if truthy a then a else b.

(** The function-valued properties every ordinary object inherits from
    [Object.prototype]; [constructor] is the function [Object]. *)
Definition Object_prototype_methods : list string :=
  [ "__defineGetter__"; "__defineSetter__"; "hasOwnProperty";
    "__lookupGetter__"; "__lookupSetter__"; "isPrototypeOf";
    "propertyIsEnumerable"; "toString"; "valueOf"; "toLocaleString" ].

Definition Object_prototype_get (k : string) : value :=
  if String.eqb k "constructor" then VFun "Object"
  else if bool_decide (k ∈ Object_prototype_methods) then VFun k
  else VUndefined.

(** [o[k]] for a value that is not nullish: own property first, then the
    prototype chain.  [__proto__] is the accessor of [Object.prototype].
    Of the properties of functions only [name] is modelled, and none of
    primitives and buffers: the sources read no other. *)
Definition get (o : value) (k : string) : value :=
  match o with
  | VObj props =>
      match props !! k with
      | Some v => v
      | None => if String.eqb k "__proto__" then VObjectPrototype
                else Object_prototype_get k
      end
  | VObjectPrototype =>
      if String.eqb k "__proto__" then VNull else Object_prototype_get k
  | VFun name =>
      if String.eqb k "name" then VStr name else Object_prototype_get k
  | _ => VUndefined
  end.

(** [o?.k] *)
Definition get_opt (o : value) (k : string) : value :=
  if nullish o then VUndefined else get o k.

(** ToString, as a template literal applies it. *)
Definition to_string (v : value) : string :=
  match v with
  | VUndefined => "undefined"
  | VNull => "null"
  | VBool true => "true"
  | VBool false => "false"
  | VNum n => Number_toString n
  | VStr s => s
  | VBuffer bytes => bytes
  | VObj _ | VObjectPrototype => "[object Object]"
  | VFun name => "function " +:+ name +:+ "() { [native code] }"
  end.

(** ToPropertyKey of a value used as [o[v]]: that of JavaScript for a
    primitive and for an object without a [toString] of its own.  An object
    that has one, which after [JSON.parse] is no function, makes
    ToPropertyKey throw; the properties below that take an object as a key
    rule it out. *)
Definition to_key (v : value) : string := to_string v.

End JS.
Import JS.

(* ===================================================================== *)
(** ** Programs over an interface of external calls *)
(* ===================================================================== *)

(** A handler is a finite tree of calls to its environment: each node names
    the call and continues with the answer.  [Throw] is a JavaScript
    exception (or a rejected promise under [await]). *)
Inductive prog (E : Type -> Type) (A : Type) : Type :=
| Ret (a : A)
| Throw (err : string)
| Vis {X : Type} (e : E X) (k : X -> prog E A).
Arguments Ret {E A} a.
Arguments Throw {E A} err.
Arguments Vis {E A X} e k.

Fixpoint bind {E A B} (p : prog E A) (f : A -> prog E B) : prog E B :=
  match p with
  | Ret a => f a
  | Throw err => Throw err
  | Vis e k => Vis e (fun x => bind (k x) f)
  end.

(** [try { p } catch (err) { h err }] *)
Fixpoint try_catch {E A} (p : prog E A) (h : string -> prog E A) : prog E A :=
  match p with
  | Ret a => Ret a
  | Throw err => h err
  | Vis e k => Vis e (fun x => try_catch (k x) h)
  end.

(** [try { p } catch (err) { h err } finally { f }] *)
Definition try_catch_finally {E A} (p : prog E A) (h : string -> prog E A)
    (f : prog E unit) : prog E A :=
  bind (try_catch (bind p (fun a => Ret (inl a)))
                  (fun err => try_catch (bind (h err) (fun a => Ret (inl a)))
                                        (fun err' => Ret (inr err'))))
       (fun r => bind f (fun _ => match r with
                                  | inl a => Ret a
                                  | inr err' => Throw err'
                                  end)).

Definition call {E X} (e : E X) : prog E X := Vis e Ret.

(** A call that either fails with a message or yields a result. *)
Definition call_or_throw {E X} (e : E (string + X)%type) : prog E X :=
  Vis e (fun r => match r with inl err => Throw err | inr x => Ret x end).

(** Programs form a monad; the notations [x ← p; q] and [p;; q] are those
    of stdpp. *)
Global Instance prog_ret {E} : MRet (prog E) := fun A a => Ret a.
Global Instance prog_bind {E} : MBind (prog E) := fun A B f p => bind p f.

(** What a run leaves behind: the calls made, in order. *)
Inductive obs (E : Type -> Type) : Type :=
| Did {X : Type} (e : E X).
Arguments Did {E X} e.

Inductive outcome (A : Type) : Type :=
| Returned (a : A)
| Thrown (err : string).
Arguments Returned {A} a.
Arguments Thrown {A} err.

(** Running a program against an environment that answers every call. *)
Fixpoint run {E A} (answer : forall X, E X -> X) (p : prog E A)
  : list (obs E) * outcome A :=
  match p with
  | Ret a => ([], Returned a)
  | Throw err => ([], Thrown err)
  | Vis e k =>
      let r := run answer (k (answer _ e)) in (Did e :: r.1, r.2)
  end.

(* ===================================================================== *)
(** ** The backend: what a request handler can ask of its environment *)
(* ===================================================================== *)

Inductive response_body : Type :=
| Json (v : value)        (* res.json(v) *)
| Text (s : string).      (* res.send(s) and the pages of Express itself *)

(** A verified Stripe event: [event.type] and [event.data.object]. *)
Record event : Type := {
  type : string;
  data_object : gmap string value
}.

(** One entry of [line_items], flattened. *)
Record line_item : Type := {
  currency : string;
  product_name : value;
  product_description : value;
  unit_amount : value;
  quantity : Z
}.

(** The argument of [stripe.checkout.sessions.create]. *)
Record session_params : Type := {
  payment_method_types : list string;
  line_items : list line_item;
  mode : string;
  success_url : string;
  cancel_url : string;
  metadata_priceId : value;
  metadata_packageType : value
}.

Inductive serverE : Type -> Type :=
| ConstructEvent (payload sig secret : value) : serverE (string + event)%type
| SessionsCreate (params : session_params) : serverE (string + value)%type
| NewDate_getFullYear : serverE Z
| NewDate_toISOString : serverE string
| MathRandom_toString36 : serverE string
| Date_now : serverE Z
| ProcessEnv (name : string) : serverE value
| JSON_parse (text : string) : serverE (option value)
| ConsoleLog (args : list value) : serverE unit
| ConsoleError (args : list value) : serverE unit
| Respond (status : Z) (body : response_body) : serverE unit.

(** The environment of one request.  [stripe_constructEvent] returns the
    event or the message of the error it throws; [stripe_sessions_create]
    the session or the message of the rejection.  [random_toString36] is
    the text of [Math.random().toString(36)]: the number drawn is a double
    in [0, 1) and only its radix-36 rendering is ever used. *)
Record world : Type := {
  stripe_constructEvent : value -> value -> value -> string + event;
  stripe_sessions_create : session_params -> string + value;
  getFullYear : Z;
  toISOString : string;
  random_toString36 : string;
  now : Z;
  process_env : string -> value;
  parse_json : string -> option value
}.

Definition answer (w : world) (X : Type) (e : serverE X) : X :=
  match e in serverE X return X with
  | ConstructEvent payload sig secret => stripe_constructEvent w payload sig secret
  | SessionsCreate params => stripe_sessions_create w params
  | NewDate_getFullYear => getFullYear w
  | NewDate_toISOString => toISOString w
  | MathRandom_toString36 => random_toString36 w
  | Date_now => now w
  | ProcessEnv name => process_env w name
  | JSON_parse text => parse_json w text
  | ConsoleLog _ => tt
  | ConsoleError _ => tt
  | Respond _ _ => tt
  end.

Definition trace : Type := list (obs serverE).

Definition serve {A} (w : world) (p : prog serverE A) : trace * outcome A :=
  run (answer w) p.

(** *** Reading a trace *)

Definition responses (t : trace) : list (Z * response_body) :=
  omap (fun o => match o with
                 | Did (Respond status body) => Some (status, body)
                 | _ => None
                 end) t.

Definition processor_calls (t : trace) : list session_params :=
  omap (fun o => match o with
                 | Did (SessionsCreate params) => Some params
                 | _ => None
                 end) t.

Definition verifier_payloads (t : trace) : list value :=
  omap (fun o => match o with
                 | Did (ConstructEvent payload _ _) => Some payload
                 | _ => None
                 end) t.

Definition is_random_draw (o : obs serverE) : bool :=
  match o with
  | Did MathRandom_toString36 => true
  | _ => false
  end.

(** The random draws of a trace: [generateAccessCode] makes one per code. *)
Definition random_draws (t : trace) : nat :=
  length (List.filter is_random_draw t).

(** *** Express: requests, [res] and the body parsers *)

(** Express, body-parser and cors are dependencies of the server, not part
    of its sources: the definitions below state what they do as far as
    [server.js] relies on it.  Paths are compared exactly. *)

Record request : Type := {
  method : string;
  path : string;
  headers : gmap string string;
  raw : string;           (* the bytes of the body as received *)
  body : value;           (* req.body *)
  parsed : bool           (* set once a body parser has read the body *)
}.

Definition set_body (req : request) (v : value) (p : bool) : request :=
  {| method := method req; path := path req; headers := headers req;
     raw := raw req; body := v; parsed := p |}.

(** [req.headers[name]] *)
Definition header (req : request) (name : string) : value :=
  match headers req !! name with
  | Some s => VStr s
  | None => VUndefined
  end.

(** [res.status(status).json(obj)] *)
Definition res_json (status : Z) (obj : gmap string value) : prog serverE unit :=
  call (Respond status (Json (VObj obj))).

(** [res.status(status).send(text)] *)
Definition res_send (status : Z) (text : string) : prog serverE unit :=
  call (Respond status (Text text)).

Definition console_log (args : list value) : prog serverE unit :=
  call (ConsoleLog args).
Definition console_error (args : list value) : prog serverE unit :=
  call (ConsoleError args).

(** [const { k } = o]: a TypeError when [o] is undefined or null. *)
Definition destructure (o : value) (k : string) : prog serverE value :=
  if nullish o
  then Throw ("TypeError: Cannot destructure property '" +:+ k +:+ "'")
  else Ret (get o k).

(** [o.k] on a value that may be undefined or null. *)
Definition member (o : value) (k : string) : prog serverE value :=
  if nullish o
  then Throw ("TypeError: Cannot read properties of " +:+ to_string o)
  else Ret (get o k).

(** A middleware either passes the request on ([next()]), possibly with
    [req.body] filled in, or ends the response. *)
Definition middleware : Type := request -> prog serverE (option request).

(** The request carries JSON: its media type is [application/json],
    spelled in lower case, alone or followed by parameters. *)
Definition is_json (req : request) : bool :=
  match headers req !! "content-type" with
  | Some t => String.eqb t "application/json"
              || startsWith t "application/json;"
  | None => false
  end.

(** Every body parser of body-parser 1.x starts alike: a request whose body
    was already read is passed on untouched (the test on [parsed] below),
    and otherwise [req.body] defaults to an empty object. *)
Definition default_body (req : request) : request :=
  set_body req (or_else (body req) (VObj ∅)) (parsed req).

(** [express.json()]: parses the body of a JSON request into [req.body];
    a body that does not parse is answered 400 by Express.  The parser is
    modelled for a body that is not empty and within its limit of 100kb,
    sent without a content encoding; a property that holds of such bodies
    only says so ([within_limit]). *)
Definition express_json : middleware := fun req =>
  if parsed req then Ret (Some req)
  else
    let req := default_body req in
    if negb (is_json req) then Ret (Some req)
    else
      r ← call (JSON_parse (raw req));
      match r with
      | Some v => Ret (Some (set_body req v true))
      | None => res_send 400 "Bad Request";; Ret None
      end.

(** [express.raw({type: 'application/json'})]: hands the bytes of a JSON
    request to [req.body] as a Buffer; modelled, like [express_json], for a
    body that is not empty and within the limit of 100kb. *)
Definition express_raw : middleware := fun req =>
  if parsed req then Ret (Some req)
  else
    let req := default_body req in
    if negb (is_json req) then Ret (Some req)
    else Ret (Some (set_body req (VBuffer (raw req)) true)).

(** [cors(corsOptions)]: answers a preflight itself and lets every other
    request through; it only ever sets response headers. *)
Definition cors : middleware := fun req =>
  if String.eqb (method req) "OPTIONS"
  then call (Respond 204 (Text ""));; Ret None
  else Ret (Some req).

(** A route handler is an ordinary function, whose exception Express turns
    into a 500 page, or an [async] function, whose rejection nobody
    awaits. *)
Inductive handler : Type :=
| Sync (h : request -> prog serverE unit)
| Async (h : request -> prog serverE unit).

Inductive layer : Type :=
| Use (mw : middleware)                                  (* app.use(mw) *)
| Route (m p : string) (mws : list middleware) (h : handler).
                                                 (* app.get / app.post *)

Definition invoke (h : handler) (req : request) : prog serverE unit :=
  match h with
  | Sync h => try_catch (h req) (fun err => res_send 500 err)
  | Async h => try_catch (h req) (fun _ => Ret tt)
  end.

Fixpoint through (mws : list middleware) (req : request)
    (k : request -> prog serverE unit) : prog serverE unit :=
  match mws with
  | [] => k req
  | mw :: rest =>
      r ← mw req;
      match r with
      | Some req' => through rest req' k
      | None => Ret tt
      end
  end.

(** The router: layers are tried in the order of registration; a request
    no layer answers gets the 404 of Express, of which the status and the
    line "Cannot METHOD path" are kept.  Paths are compared as they are
    registered: the requests considered below spell them that way. *)
Fixpoint dispatch (app : list layer) (req : request) : prog serverE unit :=
  match app with
  | [] => res_send 404 ("Cannot " +:+ method req +:+ " " +:+ path req)
  | Use mw :: rest =>
      r ← mw req;
      match r with
      | Some req' => dispatch rest req'
      | None => Ret tt
      end
  | Route m p mws h :: rest =>
      if String.eqb (method req) m && String.eqb (path req) p
      then through mws req (invoke h)
      else dispatch rest req
  end.

(* ===================================================================== *)
(** ** server.js *)
(* ===================================================================== *)

(** What the two variants of [server.js] share word for word. *)
Module Server.

Definition package (amount : Z) (name description : string) : value :=
  VObj {[ "amount" := VNum amount;
          "name" := VStr name;
          "description" := VStr description ]}.

Definition PRICES : value :=
  VObj {[ "basic" :=
            package 1999 "Basic Package"
              "AI Content Co-Pilot + 1 Template Style";
          "premium" :=
            package 2499 "Premium Package"
              "AI Content Co-Pilot + 3 Template Styles + Instructions";
          "complete" :=
            package 4999 "Complete Bundle"
              "Everything + Future Updates + Priority Support" ]}.

(** The template literal at the end of [generateAccessCode], as a
    function of the three readings. *)
Definition access_code (year : Z) (random36 : string) (millis : Z) : string :=
  let prefix := "WN" in
  let random := toUpperCase (substring random36 2 8) in
  let timestamp := slice (Number_toString millis) (-4) in
  prefix +:+ "-" +:+ Number_toString year +:+ "-" +:+ random
         +:+ "-" +:+ timestamp.

Definition generateAccessCode : prog serverE string :=
  year ← call NewDate_getFullYear;
  random36 ← call MathRandom_toString36;
  millis ← call Date_now;
  Ret (access_code year random36 millis).

(** [process.env.FRONTEND_URL || 'https://ai-wedding.appverta.app'] *)
Definition frontend_url : prog serverE string :=
  v ← call (ProcessEnv "FRONTEND_URL");
  Ret (to_string (or_else v (VStr "https://ai-wedding.appverta.app"))).

(** [app.post('/api/create-checkout-session', async (req, res) => ...)] *)
Definition create_checkout_session (req : request) : prog serverE unit :=
  try_catch
    (priceId ← destructure (body req) "priceId";
     if negb (truthy (get PRICES (to_key priceId)))
     then res_json 400 {[ "error" := VStr "Invalid price ID" ]}
     else
       let price := get PRICES (to_key priceId) in
       success ← frontend_url;
       cancel ← frontend_url;
       session ← call_or_throw (SessionsCreate
         {| payment_method_types := ["card"];
            line_items :=
              [ {| currency := "usd";
                   product_name := get price "name";
                   product_description := get price "description";
                   unit_amount := get price "amount";
                   quantity := 1 |} ];
            mode := "payment";
            success_url :=
              success +:+ "?success=true&session_id={CHECKOUT_SESSION_ID}";
            cancel_url := cancel +:+ "?canceled=true";
            metadata_priceId := priceId;
            metadata_packageType := get price "name" |});
       url ← member session "url";
       res_json 200 {[ "url" := url ]})
    (fun error =>
       console_error [VStr "Error creating checkout session:"; VStr error];;
       res_json 500 {[ "error" := VStr "Failed to create checkout session" ]}).

(** The test of [/api/validate-code] on a string. *)
Definition isValid (code : string) : bool :=
  startsWith code "WN-" && (10 <=? len code).

End Server.
Import Server.

(** The variant whose health check reports Render. *)
Module ServerRender.

Definition health (req : request) : prog serverE unit :=
  timestamp ← call NewDate_toISOString;
  environment ← call (ProcessEnv "NODE_ENV");
  res_json 200
    {[ "status" := VStr "OK";
       "timestamp" := VStr timestamp;
       "message" := VStr "Wedding Newspaper API is running on Render!";
       "environment" := or_else environment (VStr "development") ]}.

(** [app.post('/api/validate-code', (req, res) => ...)] *)
Definition validate_code (req : request) : prog serverE unit :=
  code ← destructure (body req) "code";
  if negb (truthy code)
  then res_json 400 {[ "error" := VStr "Access code is required" ]}
  else
    match code with
    | VStr s =>
        if isValid s
        then res_json 200
               {[ "valid" := VBool true;
                  "message" := VStr "Access code validated successfully";
                  "code" := code ]}
        else res_json 400
               {[ "valid" := VBool false;
                  "error" := VStr "Invalid access code format" ]}
    | _ => Throw "TypeError: code.startsWith is not a function"
    end.

(** [session.customer_details?.email || 'No email provided'] *)
Definition customerEmail_of (session : value) : value :=
  or_else (get_opt (get session "customer_details") "email")
          (VStr "No email provided").

(** [session.metadata?.packageType || 'Unknown package'] *)
Definition packageType_of (session : value) : value :=
  or_else (get_opt (get session "metadata") "packageType")
          (VStr "Unknown package").

(** [app.post('/api/webhook', express.raw(...), (req, res) => ...)] *)
Definition webhook (req : request) : prog serverE unit :=
  let sig := header req "stripe-signature" in
  verified ←
    try_catch
      (secret ← call (ProcessEnv "STRIPE_WEBHOOK_SECRET");
       event ← call_or_throw (ConstructEvent (body req) sig secret);
       console_log [VStr "Webhook signature verified successfully"];;
       Ret (Some event))
      (fun err =>
         console_log [VStr "Webhook signature verification failed:"; VStr err];;
         res_send 400 ("Webhook Error: " +:+ err);;
         Ret None);
  match verified with
  | None => Ret tt
  | Some event =>
      (if String.eqb (type event) "checkout.session.completed"
       then
         let session := VObj (data_object event) in
         console_log [VStr "Payment successful for session:";
                      get session "id"];;
         accessCode ← generateAccessCode;
         console_log [VStr "Generated access code:"; VStr accessCode];;
         let customerEmail := customerEmail_of session in
         console_log [VStr "Customer email:"; customerEmail];;
         let packageType := packageType_of session in
         console_log [VStr "Package type:"; packageType];;
         console_log [VStr ("Access code " +:+ accessCode
                            +:+ " generated for " +:+ to_string customerEmail
                            +:+ " - " +:+ to_string packageType)]
       else
         console_log [VStr ("Unhandled event type " +:+ type event)]);;
      res_json 200 {[ "received" := VBool true ]}
  end.

(** The application, in the order of registration: the webhook route
    comes before [express.json()]. *)
Definition app : list layer :=
  [ Use cors;
    Route "POST" "/api/webhook" [express_raw] (Sync webhook);
    Use express_json;
    Route "GET" "/api/health" [] (Sync health);
    Route "POST" "/api/validate-code" [] (Sync validate_code);
    Route "POST" "/api/create-checkout-session" []
          (Async create_checkout_session) ].

End ServerRender.

(** The variant whose health check reports Railway. *)
Module ServerRailway.

Definition health (req : request) : prog serverE unit :=
  timestamp ← call NewDate_toISOString;
  res_json 200
    {[ "status" := VStr "OK";
       "timestamp" := VStr timestamp;
       "message" := VStr "Wedding Newspaper API is running on Railway!" ]}.

(** [app.post('/api/validate-code', async (req, res) => ...)] *)
Definition validate_code (req : request) : prog serverE unit :=
  try_catch
    (code ← destructure (body req) "code";
     if negb (truthy code)
     then res_json 400 {[ "error" := VStr "Access code is required" ]}
     else
       match code with
       | VStr s =>
           if isValid s
           then res_json 200
                  {[ "valid" := VBool true;
                     "message" := VStr "Access code is valid";
                     "code" := code ]}
           else res_json 200
                  {[ "valid" := VBool false;
                     "message" := VStr "Invalid access code format" ]}
       | _ => Throw "TypeError: code.startsWith is not a function"
       end)
    (fun error =>
       console_error [VStr "Error validating code:"; VStr error];;
       res_json 500 {[ "error" := VStr "Internal server error" ]}).

(** [app.post('/api/webhook', express.raw(...), (req, res) => ...)] *)
Definition webhook (req : request) : prog serverE unit :=
  let sig := header req "stripe-signature" in
  verified ←
    try_catch
      (secret ← call (ProcessEnv "STRIPE_WEBHOOK_SECRET");
       event ← call_or_throw (ConstructEvent (body req) sig secret);
       Ret (Some event))
      (fun err =>
         console_log [VStr "Webhook signature verification failed.";
                      VStr err];;
         res_send 400 ("Webhook Error: " +:+ err);;
         Ret None);
  match verified with
  | None => Ret tt
  | Some event =>
      (if String.eqb (type event) "checkout.session.completed"
       then
         let session := VObj (data_object event) in
         console_log [VStr "Payment successful:"; get session "id"];;
         accessCode ← generateAccessCode;
         console_log [VStr "Generated access code:"; VStr accessCode]
       else
         console_log [VStr ("Unhandled event type " +:+ type event)]);;
      res_json 200 {[ "received" := VBool true ]}
  end.

(** The application, in the order of registration: [express.json()] is
    installed for every route, and the webhook route comes last. *)
Definition app : list layer :=
  [ Use cors;
    Use express_json;
    Route "GET" "/api/health" [] (Sync health);
    Route "POST" "/api/validate-code" [] (Async validate_code);
    Route "POST" "/api/create-checkout-session" []
          (Async create_checkout_session);
    Route "POST" "/api/webhook" [express_raw] (Sync webhook) ].

End ServerRailway.

(* ===================================================================== *)
(** ** App.jsx: the handlers of the wizard *)
(* ===================================================================== *)

Module App.

(** [currentStep] *)
Inductive step : Type := access | form | generating | complete.

Record FormData : Type := {
  bride : string;
  groom : string;
  weddingDate : string;
  venue : string;
  howMet : string;
  proposal : string;
  favoriteMemory : string;
  sharedHobbies : string;
  petNames : string;
  futurePlans : string
}.

(** [{ ...formData }] *)
Definition to_object (fd : FormData) : gmap string value :=
  {[ "bride" := VStr (bride fd);
     "groom" := VStr (groom fd);
     "weddingDate" := VStr (weddingDate fd);
     "venue" := VStr (venue fd);
     "howMet" := VStr (howMet fd);
     "proposal" := VStr (proposal fd);
     "favoriteMemory" := VStr (favoriteMemory fd);
     "sharedHobbies" := VStr (sharedHobbies fd);
     "petNames" := VStr (petNames fd);
     "futurePlans" := VStr (futurePlans fd) ]}.

(** The second argument of [fetch]. *)
Record fetch_init : Type := {
  init_method : string;
  init_headers : gmap string string;
  init_body : string
}.

(** What the handlers look at in a [Response]: the status, and what
    [response.json()] resolves to, if the body is JSON at all. *)
Record response : Type := {
  status : Z;
  json : option value
}.

(** [response.ok] *)
Definition ok (r : response) : bool :=
  (200 <=? status r) && (status r <=? 299).

(** The calls of the handlers.  [TrackEvent] stands for [trackEvent]: its
    parameters are timings and lengths that decide nothing and are left
    out. *)
Inductive clientE : Type -> Type :=
| PreventDefault : clientE unit
| TrackEvent (eventName : string) : clientE unit
| JSON_stringify (v : value) : clientE string
| Fetch (url : string) (init : fetch_init) : clientE (string + response)%type
| Alert (message : string) : clientE unit
| SetIsValidCode (b : bool) : clientE unit
| SetCurrentStep (s : step) : clientE unit
| SetIsGenerating (b : bool) : clientE unit
| SetGeneratedContent (v : value) : clientE unit.

(** The browser and the network, as seen from one handler: [fetch]
    resolves to a response or rejects with a message. *)
Record browser : Type := {
  fetch : string -> fetch_init -> string + response;
  stringify : value -> string
}.

Definition answer (b : browser) (X : Type) (e : clientE X) : X :=
  match e in clientE X return X with
  | PreventDefault => tt
  | TrackEvent _ => tt
  | JSON_stringify v => stringify b v
  | Fetch url init => fetch b url init
  | Alert _ => tt
  | SetIsValidCode _ => tt
  | SetCurrentStep _ => tt
  | SetIsGenerating _ => tt
  | SetGeneratedContent _ => tt
  end.

Definition trace : Type := list (obs clientE).

Definition handle {A} (b : browser) (p : prog clientE A) : trace * outcome A :=
  run (answer b) p.

(** The stages assigned to [currentStep], in order. *)
Definition steps (t : trace) : list step :=
  omap (fun o => match o with
                 | Did (SetCurrentStep s) => Some s
                 | _ => None
                 end) t.

Definition alerts (t : trace) : list string :=
  omap (fun o => match o with
                 | Did (Alert message) => Some message
                 | _ => None
                 end) t.

Definition requests (t : trace) : list (string * fetch_init) :=
  omap (fun o => match o with
                 | Did (Fetch url init) => Some (url, init)
                 | _ => None
                 end) t.

(** [currentStep] after a run that started at [s]. *)
Definition final_step (s : step) (t : trace) : step :=
  List.last (steps t) s.

Definition trackEvent (eventName : string) : prog clientE unit :=
  call (TrackEvent eventName).
Definition alert (message : string) : prog clientE unit :=
  call (Alert message).
Definition setIsValidCode (b : bool) : prog clientE unit :=
  call (SetIsValidCode b).
Definition setCurrentStep (s : step) : prog clientE unit :=
  call (SetCurrentStep s).
Definition setIsGenerating (b : bool) : prog clientE unit :=
  call (SetIsGenerating b).
Definition setGeneratedContent (v : value) : prog clientE unit :=
  call (SetGeneratedContent v).

(** [await response.json()] *)
Definition response_json (r : response) : prog clientE value :=
  match json r with
  | Some v => Ret v
  | None => Throw "SyntaxError: Unexpected token in JSON"
  end.

Definition post_json (body : string) : fetch_init :=
  {| init_method := "POST";
     init_headers := {[ "Content-Type" := "application/json" ]};
     init_body := body |}.

Definition validate_code_url : string :=
  "https://wedding-newspaper-backend.onrender.com/validate-code".
Definition generate_newspaper_url : string :=
  "https://wedding-newspaper-backend.onrender.com/generate-newspaper".

(** [handleAccessCodeSubmit], the same in both variants of the file up to
    the parameters of [trackEvent]. *)
Definition handleAccessCodeSubmit (accessCode : string) : prog clientE unit :=
  call PreventDefault;;
  trackEvent "access_code_attempt";;
  try_catch
    (body ← call (JSON_stringify (VObj {[ "accessCode" := VStr accessCode ]}));
     response ← call_or_throw (Fetch validate_code_url (post_json body));
     if ok response
     then
       setIsValidCode true;;
       setCurrentStep form;;
       trackEvent "access_code_success";;
       trackEvent "form_start"
     else
       trackEvent "access_code_error";;
       alert "Invalid access code. Please check your code and try again.")
    (fun error =>
       trackEvent "access_code_error";;
       alert "Network error. Please try again.").

Definition requiredFields : list (string * (FormData -> string)) :=
  [ ("bride", bride); ("groom", groom); ("weddingDate", weddingDate);
    ("venue", venue); ("howMet", howMet) ].

(** [requiredFields.filter(field => !formData[field].trim())] *)
Definition missingFields (formData : FormData) : list string :=
  (List.filter (fun field => String.eqb (trim (field.2 formData)) "")
               requiredFields).*1.

(** [names.join(', ')] *)
Fixpoint join (sep : string) (names : list string) : string :=
  match names with
  | [] => ""
  | [name] => name
  | name :: rest => name +:+ sep +:+ join sep rest
  end.

(** [handleFormSubmit], the same in both variants of the file up to the
    parameters of [trackEvent]. *)
Definition handleFormSubmit (formData : FormData) (accessCode : string)
  : prog clientE unit :=
  call PreventDefault;;
  let missing := missingFields formData in
  if (0 <? length missing)%nat
  then
    trackEvent "form_validation_error";;
    alert ("Please fill in all required fields: " +:+ join ", " missing)
  else
    trackEvent "form_submit_attempt";;
    setIsGenerating true;;
    setCurrentStep generating;;
    try_catch_finally
      (body ← call (JSON_stringify
                      (VObj (<[ "accessCode" := VStr accessCode ]>
                               (to_object formData))));
       response ← call_or_throw (Fetch generate_newspaper_url (post_json body));
       if ok response
       then
         result ← response_json response;
         setGeneratedContent result;;
         setCurrentStep complete;;
         trackEvent "form_complete";;
         trackEvent "newspaper_generated"
       else Throw "Generation failed")
      (fun error =>
         trackEvent "generation_error";;
         alert "Error generating newspaper. Please try again.";;
         setCurrentStep form)
      (setIsGenerating false).

End App.

(* ===================================================================== *)
(** ** Client and server put together *)
(* ===================================================================== *)

Module Wire.

Definition lower_char (c : ascii) : ascii :=
  if is_upper c then ascii_of_nat (nat_of_ascii c + 32) else c.

(** Header names travel in lower case. *)
Fixpoint toLowerCase (s : string) : string :=
  match s with
  | EmptyString => EmptyString
  | String c s' => String (lower_char c) (toLowerCase s')
  end.

Definition lower_keys (hs : gmap string string) : gmap string string :=
  list_to_map ((fun kv => (toLowerCase kv.1, kv.2)) <$> map_to_list hs).

(** The path of an absolute URL: what follows the host. *)
Definition url_path (url : string) : string :=
  match String.index 0 "://" url with
  | Some i =>
      let rest := String.substring (i + 3) (String.length url) url in
      match String.index 0 "/" rest with
      | Some j => String.substring j (String.length rest) rest
      | None => "/"
      end
  | None => url
  end.

(** A request as it arrives: nothing has read its body yet. *)
Definition incoming (m p : string) (hs : gmap string string) (bytes : string)
  : request :=
  {| method := m; path := p; headers := hs; raw := bytes;
     body := VUndefined; parsed := false |}.

Definition to_request (url : string) (init : App.fetch_init) : request :=
  incoming (App.init_method init) (url_path url)
           (lower_keys (App.init_headers init)) (App.init_body init).

(** What [fetch] resolves to, given what the server did: the first
    response it sent; a server that never answers leaves the promise
    to fail. *)
Definition to_response (t : trace) : string + App.response :=
  match responses t with
  | (status, Json v) :: _ => inr {| App.status := status; App.json := Some v |}
  | (status, Text _) :: _ => inr {| App.status := status; App.json := None |}
  | [] => inl "TypeError: Failed to fetch"
  end.

(** [fetch] against an Express application. *)
Definition backend (app : list layer) (w : world)
  : string -> App.fetch_init -> string + App.response :=
  fun url init => to_response (serve w (dispatch app (to_request url init))).1.

End Wire.

(* ===================================================================== *)
(** ** Vocabulary of the properties, and sample worlds *)
(* ===================================================================== *)

(** A request whose parsed body has the property [k], with value [v]. *)
Definition posted (req : request) (k : string) (v : value)
    (others : gmap string value) : request :=
  set_body req (VObj (<[k := v]> others)) true.

(** A handler that answers with one JSON object and returns. *)
Definition answered (status : Z) (obj : gmap string value)
  : trace * outcome unit :=
  ([Did (Respond status (Json (VObj obj)))], Returned tt).

(** The answer carries [valid: true]. *)
Definition reports_valid (t : trace) : Prop :=
  exists status obj,
    responses t = [(status, Json (VObj obj))]
    /\ obj !! "valid" = Some (VBool true).

(** The keys an object literal answers to without owning them. *)
Definition inherited_keys : list string :=
  "__proto__" :: "constructor" :: Object_prototype_methods.

(** The argument [create_checkout_session] builds from a price entry. *)
Definition params_for (w : world) (priceId : value) (price : value)
  : session_params :=
  let frontend :=
    to_string (or_else (process_env w "FRONTEND_URL")
                       (VStr "https://ai-wedding.appverta.app")) in
  {| payment_method_types := ["card"];
     line_items :=
       [ {| currency := "usd";
            product_name := get price "name";
            product_description := get price "description";
            unit_amount := get price "amount";
            quantity := 1 |} ];
     mode := "payment";
     success_url :=
       frontend +:+ "?success=true&session_id={CHECKOUT_SESSION_ID}";
     cancel_url := frontend +:+ "?canceled=true";
     metadata_priceId := priceId;
     metadata_packageType := get price "name" |}.

(** The amounts of the price table, in cents. *)
Definition configured_amount (priceId : string) : Z :=
  if String.eqb priceId "basic" then 1999
  else if String.eqb priceId "premium" then 2499
  else 4999.

Definition example_world : world :=
  {| stripe_constructEvent := fun _ _ _ =>
       inl "No signatures found matching the expected signature for payload";
     stripe_sessions_create := fun _ =>
       inr (VObj {[ "url" := VStr "https://checkout.stripe.com/c/pay/cs_test_a1" ]});
     getFullYear := 2025;
     toISOString := "2025-06-01T12:00:00.000Z";
     random_toString36 := "0.4fzyo82mvyr";
     now := 1748779200123;
     process_env := fun _ => VUndefined;
     parse_json := fun _ => None |}.

Definition example_request : request :=
  {| method := "POST"; path := "/api/create-checkout-session";
     headers := {[ "content-type" := "application/json" ]};
     raw := ""; body := VUndefined; parsed := false |}.

(** What the handler asks first: the secret, then the verification. *)
Definition verification (w : world) (req : request) : trace :=
  [ Did (ProcessEnv "STRIPE_WEBHOOK_SECRET");
    Did (ConstructEvent (body req) (header req "stripe-signature")
                        (process_env w "STRIPE_WEBHOOK_SECRET")) ].

(** What Stripe makes of the request. *)
Definition verified (w : world) (req : request) : string + event :=
  stripe_constructEvent w (body req) (header req "stripe-signature")
                        (process_env w "STRIPE_WEBHOOK_SECRET").

(** The code minted in the world [w]. *)
Definition minted (w : world) : string :=
  access_code (getFullYear w) (random_toString36 w) (now w).

Definition webhook_request (bytes : string) (signature : string) : request :=
  {| method := "POST"; path := "/api/webhook";
     headers := {[ "content-type" := "application/json";
                   "stripe-signature" := signature ]};
     raw := bytes; body := VBuffer bytes; parsed := true |}.

(** A world in which Stripe verifies every request as the given event. *)
Definition accepting_world (ev : event) (w : world) : world :=
  {| stripe_constructEvent := fun _ _ _ => inr ev;
     stripe_sessions_create := stripe_sessions_create w;
     getFullYear := getFullYear w;
     toISOString := toISOString w;
     random_toString36 := random_toString36 w;
     now := now w;
     process_env := process_env w;
     parse_json := parse_json w |}.

Definition refund_event : event :=
  {| type := "charge.refunded"; data_object := {[ "id" := VStr "ch_1" ]} |}.

Fixpoint all_chars (p : ascii -> bool) (s : string) : bool :=
  match s with
  | EmptyString => true
  | String c s' => p c && all_chars p s'
  end.

Definition is_alnum (c : ascii) : bool := is_digit c || is_upper c || is_lower c.

(** The pattern of the specification, [WN-<4-digit year>-<6
    alphanumeric>-<4 digit>], read position by position. *)
Definition well_formed_code (code : string) : bool :=
  (String.length code =? 19)%nat
  && String.eqb (String.substring 0 3 code) "WN-"
  && all_chars is_digit (String.substring 3 4 code)
  && String.eqb (String.substring 7 1 code) "-"
  && all_chars is_alnum (String.substring 8 6 code)
  && String.eqb (String.substring 14 1 code) "-"
  && all_chars is_digit (String.substring 15 4 code).

Definition is_upper_alnum (c : ascii) : bool := is_digit c || is_upper c.

(** The shape of a code as it is minted, [WN-<4 digits>-<6 digits or
    capital letters>-<4 digits>]: the random part has gone through
    [toUpperCase]. *)
Definition minted_shape (code : string) : bool :=
  (String.length code =? 19)%nat
  && String.eqb (String.substring 0 3 code) "WN-"
  && all_chars is_digit (String.substring 3 4 code)
  && String.eqb (String.substring 7 1 code) "-"
  && all_chars is_upper_alnum (String.substring 8 6 code)
  && String.eqb (String.substring 14 1 code) "-"
  && all_chars is_digit (String.substring 15 4 code).

(** The exact radix-36 expansion of [num / den] for [0 <= num < den], as
    [toString(36)] prints a fraction whose expansion is short: 1/2 is
    [0.i]. *)
Definition digit36 (d : N) : ascii :=
  if (d <? 10)%N then ascii_of_N (48 + d) else ascii_of_N (87 + d).

Fixpoint fraction36 (fuel : nat) (num den : N) : string :=
  match fuel with
  | O => ""
  | S fuel' =>
      if (num =? 0)%N then ""
      else String (digit36 ((num * 36) `div` den))
                  (fraction36 fuel' ((num * 36) `mod` den) den)
  end.

Definition toString36 (num den : N) : string :=
  if (num =? 0)%N then "0" else "0." +:+ fraction36 60 num den.

Definition completed_event : event :=
  {| type := "checkout.session.completed";
     data_object := {[ "id" := VStr "cs_test_a1" ]} |}.

(** The world of [example_world] at a moment when [Math.random()] is 1/2. *)
Definition half_world : world :=
  {| stripe_constructEvent := fun _ _ _ => inr completed_event;
     stripe_sessions_create := stripe_sessions_create example_world;
     getFullYear := 2025;
     toISOString := toISOString example_world;
     random_toString36 := toString36 1 2;
     now := 1748779200123;
     process_env := process_env example_world;
     parse_json := parse_json example_world |}.

(** The civil year of a day counted from 1 January 1970, in the proleptic
    Gregorian calendar of [Date]: YearFromTime on whole days. *)
Definition year_of_day (day : Z) : Z :=
  let z := day + 719468 in
  let era := z `div` 146097 in
  let doe := z - era * 146097 in
  let yoe :=
    (doe - doe `div` 1460 + doe `div` 36524 - doe `div` 146096) `div` 365 in
  let doy := doe - (365 * yoe + yoe `div` 4 - yoe `div` 100) in
  let mp := (5 * doy + 2) `div` 153 in
  yoe + era * 400 + (if mp <? 10 then 0 else 1).

Definition msPerDay : Z := 86400000.

(** [getFullYear()] of a time value already shifted to local time. *)
Definition year_of_millis (t : Z) : Z := year_of_day (t `div` msPerDay).

(** The two readings of [generateAccessCode] are of one clock:
    [new Date().getFullYear()] is the civil year, at a local time within a
    day of UTC, of an instant within a day of the one [Date.now()]
    returns. *)
Definition one_clock (w : world) : Prop :=
  exists instant zone : Z,
    - msPerDay <= now w - instant <= msPerDay
    /\ - msPerDay <= zone <= msPerDay
    /\ getFullYear w = year_of_millis (instant + zone).

Definition is_parse (o : obs serverE) : bool :=
  match o with
  | Did (JSON_parse _) => true
  | _ => false
  end.

(** A world whose [JSON.parse] reads every body as the same object. *)
Definition parsing_world (doc : value) (w : world) : world :=
  {| stripe_constructEvent := stripe_constructEvent w;
     stripe_sessions_create := stripe_sessions_create w;
     getFullYear := getFullYear w;
     toISOString := toISOString w;
     random_toString36 := random_toString36 w;
     now := now w;
     process_env := process_env w;
     parse_json := fun _ => Some doc |}.

(** The browser [b] with the Express application [app] behind [fetch]. *)
Definition against (app : list layer) (w : world) (b : App.browser)
  : App.browser :=
  {| App.fetch := Wire.backend app w; App.stringify := App.stringify b |}.

(** What the access step serialises. *)
Definition access_document (accessCode : string) : value :=
  VObj {[ "accessCode" := VStr accessCode ]}.

Definition json_headers : gmap string string :=
  {[ "content-type" := "application/json" ]}.

Definition double_quote : ascii := "034"%char.

Definition quoted (s : string) : string :=
  String double_quote (s +:+ String double_quote "").

Definition example_code : string := "WN-2025-4FZYO8-0123".

(** The JSON text of [{accessCode: example_code}]. *)
Definition example_text : string :=
  "{" +:+ quoted "accessCode" +:+ ":" +:+ quoted example_code +:+ "}".

Definition example_browser : App.browser :=
  {| App.fetch := fun _ _ => inl "TypeError: Failed to fetch";
     App.stringify := fun _ => example_text |}.

Definition example_backend : world :=
  parsing_world (access_document example_code) example_world.

(** All five required fields hold something other than white space. *)
Definition all_filled (fd : App.FormData) : Prop :=
  trim (App.bride fd) <> "" /\ trim (App.groom fd) <> ""
  /\ trim (App.weddingDate fd) <> "" /\ trim (App.venue fd) <> ""
  /\ trim (App.howMet fd) <> "".

(** What [handleFormSubmit] serialises. *)
Definition form_document (fd : App.FormData) (accessCode : string) : value :=
  VObj (<[ "accessCode" := VStr accessCode ]> (App.to_object fd)).

(** The response is [ok] and its body is JSON. *)
Definition generated (r : App.response) : bool :=
  App.ok r && match App.json r with Some _ => true | None => false end.

Definition example_form : App.FormData :=
  {| App.bride := "Ada"; App.groom := "Charles";
     App.weddingDate := "2025-06-14"; App.venue := "Kew Gardens";
     App.howMet := "At a lecture on engines";
     App.proposal := ""; App.favoriteMemory := ""; App.sharedHobbies := "";
     App.petNames := ""; App.futurePlans := "" |}.

(** A browser whose every request is answered with the given response. *)
Definition answering (r : App.response) : App.browser :=
  {| App.fetch := fun _ _ => inr r; App.stringify := fun _ => "{}" |}.

Definition newspaper : value := VObj {[ "headline" := VStr "Ada & Charles" ]}.

(** The last four decimal digits of a number from 1000 on. *)
Definition last_four (x : N) : string :=
  String (pretty_N_char ((x `div` 1000) `mod` 10))
    (String (pretty_N_char ((x `div` 100) `mod` 10))
       (String (pretty_N_char ((x `div` 10) `mod` 10))
          (String (pretty_N_char (x `mod` 10)) ""))).

(* ===================================================================== *)
(** ** App.jsx: analytics, typed input and scroll depth *)
(* ===================================================================== *)

Module Analytics.

(** [window.dataLayer]: the array of the tag manager, when the page has
    one. *)
Definition dataLayer : Type := option (list (gmap string value)).

(** The object literal [{ event: eventName, ...parameters, timestamp }]:
    a later property replaces an earlier one of the same name. *)
Definition entry (timestamp eventName : string)
    (parameters : gmap string value) : gmap string value :=
  <[ "timestamp" := VStr timestamp ]>
    (parameters ∪ {[ "event" := VStr eventName ]}).

(** [trackEvent(eventName, parameters)] at the instant whose
    [new Date().toISOString()] is [timestamp]: the layer afterwards, and
    the arguments of the one [console.log]. *)
Definition trackEvent (timestamp eventName : string)
    (parameters : gmap string value) (layer : dataLayer)
  : dataLayer * list value :=
  (match layer with
   | Some entries => Some (entries ++ [entry timestamp eventName parameters])
   | None => None
   end,
   [VStr "Analytics Event:"; VStr eventName; VObj parameters]).

(** [trackFormProgress(step, data)] *)
Definition trackFormProgress (timestamp : string) (step : value)
    (data : gmap string value) (layer : dataLayer) : dataLayer * list value :=
  trackEvent timestamp "form_progress"
    (data ∪ {[ "step" := step; "form_name" := VStr "wedding_details" ]})
    layer.

(** What [Math.round] can return. *)
Inductive number : Type :=
| Finite (n : Z)
| NaN
| PlusInfinity
| MinusInfinity.

(** [x >= k] for an integer [k] *)
Definition at_least (x : number) (k : Z) : bool :=
  match x with
  | Finite n => k <=? n
  | PlusInfinity => true
  | NaN | MinusInfinity => false
  end.

(** [window.scrollTracked25], [...50] and [...75]; unset reads as false. *)
Record scroll_marks : Type := {
  scrollTracked25 : bool;
  scrollTracked50 : bool;
  scrollTracked75 : bool
}.

Definition unmarked : scroll_marks :=
  {| scrollTracked25 := false; scrollTracked50 := false;
     scrollTracked75 := false |}.

(** [handleScroll], from the rounded [scrollPercent] on: the percentages
    reported as [scroll_depth] events, in order, and the marks left on
    [window]. *)
Definition handleScroll (scrollPercent : number) (marks : scroll_marks)
  : list Z * scroll_marks :=
  let r25 :=
    if at_least scrollPercent 25 && negb (scrollTracked25 marks)
    then ([25],
          {| scrollTracked25 := true;
             scrollTracked50 := scrollTracked50 marks;
             scrollTracked75 := scrollTracked75 marks |})
    else ([], marks) in
  let r50 :=
    if at_least scrollPercent 50 && negb (scrollTracked50 r25.2)
    then (r25.1 ++ [50],
          {| scrollTracked25 := scrollTracked25 r25.2;
             scrollTracked50 := true;
             scrollTracked75 := scrollTracked75 r25.2 |})
    else r25 in
  if at_least scrollPercent 75 && negb (scrollTracked75 r50.2)
  then (r50.1 ++ [75],
        {| scrollTracked25 := scrollTracked25 r50.2;
           scrollTracked50 := scrollTracked50 r50.2;
           scrollTracked75 := true |})
  else r50.

(** A series of scroll events, one after the other. *)
Fixpoint scrolling (percents : list number) (marks : scroll_marks)
  : list Z * scroll_marks :=
  match percents with
  | [] => ([], marks)
  | p :: rest =>
      let r := handleScroll p marks in
      let r' := scrolling rest r.2 in
      (r.1 ++ r'.1, r'.2)
  end.

(** [handleInputChange(field, value)]: the updater handed to
    [setFormData], and the events tracked. *)
Definition handleInputChange (field value : string)
  : (gmap string JS.value -> gmap string JS.value) * list string :=
  (fun prev => <[ field := VStr value ]> prev,
   if 0 <? len (trim value) then ["form_field_complete"] else []).

(** The [onChange] of the access-code input: what [setAccessCode] is
    given. *)
Definition onAccessCodeChange (value : string) : string := toUpperCase value.

End Analytics.

(** The writes to [isValidCode] and to [isGenerating], in order. *)
Definition validations (t : App.trace) : list bool :=
  omap (fun o => match o with
                 | Did (App.SetIsValidCode b) => Some b
                 | _ => None
                 end) t.

Definition generating_writes (t : App.trace) : list bool :=
  omap (fun o => match o with
                 | Did (App.SetIsGenerating b) => Some b
                 | _ => None
                 end) t.

Definition is_string (v : value) : bool :=
  match v with VStr _ => true | _ => false end.

(** What [JSON.parse] can leave under a property, other than a string or
    an array, that is taken as a key without an exception: nothing at all,
    null, a boolean, an integer, or an object without a [toString] of its
    own. *)
Definition json_non_string (v : value) : bool :=
  match v with
  | VUndefined | VNull | VBool _ | VNum _ => true
  | VObj props =>
      match props !! "toString" with None => true | Some _ => false end
  | _ => false
  end.

(** A code unit of ASCII. *)
Definition is_ascii (c : ascii) : bool := (nat_of_ascii c <? 128)%nat.

(** A body the parsers of body-parser read: not empty, and within the
    default limit of 100kb. *)
Definition within_limit (bytes : string) : Prop := 0 < len bytes <= 102400.

(** Content types of a JSON request. *)
Definition json_content_types : list string :=
  [ "application/json"; "application/json; charset=utf-8";
    "application/json;charset=utf-8"; "application/json; charset=UTF-8" ].

(** A character of a decimal rendering. *)
Definition is_decimal (c : ascii) : bool := is_digit c || Ascii.eqb c "-".

Definition not_lower (c : ascii) : bool := negb (is_lower c).

Definition tiers : list string := ["basic"; "premium"; "complete"].

(** A world in which the processor turns every session down. *)
Definition failing_processor (err : string) (w : world) : world :=
  {| stripe_constructEvent := stripe_constructEvent w;
     stripe_sessions_create := fun _ => inl err;
     getFullYear := getFullYear w;
     toISOString := toISOString w;
     random_toString36 := random_toString36 w;
     now := now w;
     process_env := process_env w;
     parse_json := parse_json w |}.

(** A world with the given [FRONTEND_URL]. *)
Definition with_frontend (url : string) (w : world) : world :=
  {| stripe_constructEvent := stripe_constructEvent w;
     stripe_sessions_create := stripe_sessions_create w;
     getFullYear := getFullYear w;
     toISOString := toISOString w;
     random_toString36 := random_toString36 w;
     now := now w;
     process_env := fun name =>
       if String.eqb name "FRONTEND_URL" then VStr url else process_env w name;
     parse_json := parse_json w |}.

(** What the base of the redirect URLs is. *)
Definition frontend_base (w : world) : string :=
  match process_env w "FRONTEND_URL" with
  | VStr url => if String.eqb url "" then "https://ai-wedding.appverta.app" else url
  | _ => "https://ai-wedding.appverta.app"
  end.

Definition blank_form : App.FormData :=
  {| App.bride := "Ada"; App.groom := "   ";
     App.weddingDate := "2025-06-14"; App.venue := "";
     App.howMet := "At a lecture on engines";
     App.proposal := ""; App.favoriteMemory := ""; App.sharedHobbies := "";
     App.petNames := ""; App.futurePlans := "" |}.


(** The depths [handleScroll] reports, and the mark each leaves on
    [window]. *)
Definition depths : list Z := [25; 50; 75].

Definition marked (k : Z) (marks : Analytics.scroll_marks) : bool :=
  if k =? 25 then Analytics.scrollTracked25 marks
  else if k =? 50 then Analytics.scrollTracked50 marks
  else if k =? 75 then Analytics.scrollTracked75 marks
  else false.

(** Some scroll event of the series reached [k] percent. *)
Definition reached (percents : list Analytics.number) (k : Z) : bool :=
  existsb (fun p => Analytics.at_least p k) percents.

(** The names of the required fields, in the order of the source. *)
Definition required_names : list string :=
  ["bride"; "groom"; "weddingDate"; "venue"; "howMet"].

(* ===================================================================== *)
(** ** Properties *)
(* ===================================================================== *)

(** *** Strings *)

Example substring_clamps : substring "0.4fzyo82mvyr" 2 8 = "4fzyo8".
Proof. reflexivity. Qed.

Example substring_past_the_end : substring "0.i" 2 8 = "i".
Proof. reflexivity. Qed.

Example slice_last_four : slice (Number_toString 1748779200123) (-4) = "0123".
Proof. reflexivity. Qed.

Example slice_of_a_short_string : slice (Number_toString 5) (-4) = "5".
Proof. reflexivity. Qed.

Example year_of_the_epoch :
  year_of_millis 0 = 1970 /\ year_of_millis (-1) = 1969.
Proof. split; reflexivity. Qed.

Example year_of_a_leap_day :
  year_of_millis 951782400000 = 2000 /\ year_of_millis 946684799999 = 1999
  /\ year_of_millis 1748779200123 = 2025.
Proof. repeat split; reflexivity. Qed.

Example trim_both_ends : trim "  Kew Gardens  " = "Kew Gardens".
Proof. reflexivity. Qed.

Example trim_blank : trim "   " = "".
Proof. reflexivity. Qed.

Example toUpperCase_radix_36 : toUpperCase "4fzyo8" = "4FZYO8".
Proof. reflexivity. Qed.

Example inherited_constructor : get PRICES "constructor" = VFun "Object".
Proof. reflexivity. Qed.

Example unknown_key : get PRICES "gold" = VUndefined.
Proof. reflexivity. Qed.

Lemma length_append (a b : string) :
  String.length (a +:+ b) = (String.length a + String.length b)%nat.
Proof.
  induction a as [|c a IH]; [done|].
  change (String c a +:+ b) with (String c (a +:+ b)). cbn. by rewrite IH.
Qed.

Lemma len_append (a b : string) : len (a +:+ b) = len a + len b.
Proof. unfold len. rewrite length_append. lia. Qed.

Lemma len_nonneg (s : string) : 0 <= len s.
Proof. unfold len. lia. Qed.

Lemma length_substring (s : string) (n m : nat) :
  String.length (String.substring n m s) = (m `min` (String.length s - n))%nat.
Proof.
  revert n m. induction s as [|c s IH]; intros [|n] [|m]; cbn; try done.
  all: rewrite IH; lia.
Qed.

Lemma length_toUpperCase (s : string) :
  String.length (toUpperCase s) = String.length s.
Proof. induction s as [|c s IH]; [done|]. cbn. by rewrite IH. Qed.

Lemma len_substring (s : string) (a b : Z) :
  0 <= a <= b ->
  len (substring s a b) = Z.max 0 (Z.min b (len s) - a).
Proof.
  intros Hab. unfold substring, clamp, len.
  rewrite length_substring. lia.
Qed.

Lemma len_slice_last (s : string) (k : Z) :
  0 < k -> len (slice s (- k)) = Z.min k (len s).
Proof.
  intros Hk. unfold slice, len.
  assert ((- k <? 0) = true) as -> by lia.
  rewrite length_substring. lia.
Qed.

(** *** Decimal renderings *)

Lemma length_pretty_N_go (x : N) (s : string) :
  (String.length s <= String.length (pretty_N_go x s))%nat.
Proof.
  revert s. induction (N.lt_wf_0 x) as [x _ IH]; intros s.
  destruct (decide (x = 0%N)) as [->|Hx]; [by rewrite pretty_N_go_0|].
  rewrite pretty_N_go_step by lia.
  etrans; [|apply IH; apply N.div_lt; lia]. cbn. lia.
Qed.

Lemma length_pretty_N_go_pos (x : N) (s : string) :
  (0 < x)%N -> (S (String.length s) <= String.length (pretty_N_go x s))%nat.
Proof.
  intros Hx. rewrite pretty_N_go_step by done.
  etrans; [|apply length_pretty_N_go]. done.
Qed.

Lemma len_Number_toString_pos (n : Z) : 1 <= len (Number_toString n).
Proof.
  unfold len, Number_toString, pretty, pretty_Z.
  destruct n as [|p|p]; [done| |].
  - unfold pretty, pretty_positive, pretty, pretty_N. case_decide; [done|].
    pose proof (length_pretty_N_go_pos (N.pos p) "" ltac:(lia)) as Hlen.
    change (String.length "") with 0%nat in Hlen. lia.
  - rewrite length_append. cbn. lia.
Qed.

Lemma len_Number_toString_4 (n : Z) : 1000 <= n -> 4 <= len (Number_toString n).
Proof.
  intros Hn. unfold len, Number_toString, pretty, pretty_Z.
  destruct n as [|p|p]; [lia| |lia].
  unfold pretty, pretty_positive, pretty, pretty_N. case_decide; [done|].
  assert (1000 <= N.pos p)%N as Hp by lia. clear Hn. revert Hp.
  generalize (N.pos p). intros x Hx.
  assert (100 <= x `div` 10)%N by (apply N.div_le_lower_bound; lia).
  assert (10 <= (x `div` 10) `div` 10)%N by (apply N.div_le_lower_bound; lia).
  assert (1 <= ((x `div` 10) `div` 10) `div` 10)%N by (apply N.div_le_lower_bound; lia).
  rewrite 3!pretty_N_go_step by lia.
  match goal with |- context [pretty_N_go ?y ?s] =>
    pose proof (length_pretty_N_go_pos y s ltac:(lia)) as H3;
    change (String.length s) with 3%nat in H3 end.
  lia.
Qed.

(** *** The validator *)

Lemma get_insert_eq (props : gmap string value) (k : string) (v : value) :
  get (VObj (<[k := v]> props)) k = v.
Proof. unfold get. by rewrite lookup_insert_eq. Qed.

Lemma isValid_spec (s : string) :
  isValid s = true <-> startsWith s "WN-" = true /\ 10 <= len s.
Proof. unfold isValid. rewrite andb_true_iff, Z.leb_le. done. Qed.

Lemma isValid_empty : isValid "" = false.
Proof. reflexivity. Qed.

Lemma validate_code_answer
    (w : world) (req : request) (others : gmap string value) (s : string) :
  serve w (ServerRender.validate_code (posted req "code" (VStr s) others)) =
    if isValid s
    then answered 200
           {[ "valid" := VBool true;
              "message" := VStr "Access code validated successfully";
              "code" := VStr s ]}
    else if String.eqb s ""
    then answered 400 {[ "error" := VStr "Access code is required" ]}
    else answered 400
           {[ "valid" := VBool false;
              "error" := VStr "Invalid access code format" ]}.
Proof.
  unfold ServerRender.validate_code, posted, destructure.
  cbn [body set_body nullish]. rewrite get_insert_eq. cbn.
  destruct (String.eqb_spec s "") as [->|Hs]; [done|].
  cbn. by destruct (isValid s).
Qed.

(** [C1] POST /api/validate-code answers a string with [valid: true] exactly
    when it starts with "WN-" and has length at least 10; an empty string
    is answered 400 as missing and every other string 400 with
    [valid: false].  Nothing else about the string is looked at. *)
Theorem validate_code_format_only
    (w : world) (req : request) (others : gmap string value) (s : string) :
  let out := serve w (ServerRender.validate_code
                        (posted req "code" (VStr s) others)) in
  out =
    (if isValid s
     then answered 200
            {[ "valid" := VBool true;
               "message" := VStr "Access code validated successfully";
               "code" := VStr s ]}
     else if String.eqb s ""
     then answered 400 {[ "error" := VStr "Access code is required" ]}
     else answered 400
            {[ "valid" := VBool false;
               "error" := VStr "Invalid access code format" ]})
  /\ (isValid s = true <-> startsWith s "WN-" = true /\ 10 <= len s)
  /\ (reports_valid out.1 <-> startsWith s "WN-" = true /\ 10 <= len s).
Proof.
  intros out. subst out. rewrite validate_code_answer.
  split; [done|]. split; [apply isValid_spec|].
  rewrite <- isValid_spec. unfold reports_valid, answered.
  destruct (isValid s) eqn:Hv.
  - split; [done|]. intros _. eexists _, _. split; [reflexivity|]. done.
  - split; [|done]. intros (status & obj & Hr & Hobj).
    destruct (String.eqb s ""); cbn in Hr; simplify_eq; done.
Qed.

(** The other variant tells the same strings apart; it answers a malformed
    code with 200 and [valid: false]. *)
Lemma validate_code_format_only_railway
    (w : world) (req : request) (others : gmap string value) (s : string) :
  serve w (ServerRailway.validate_code (posted req "code" (VStr s) others)) =
    if isValid s
    then answered 200
           {[ "valid" := VBool true;
              "message" := VStr "Access code is valid";
              "code" := VStr s ]}
    else if String.eqb s ""
    then answered 400 {[ "error" := VStr "Access code is required" ]}
    else answered 200
           {[ "valid" := VBool false;
              "message" := VStr "Invalid access code format" ]}.
Proof.
  unfold ServerRailway.validate_code, posted, destructure.
  cbn [body set_body nullish]. rewrite get_insert_eq. cbn.
  destruct (String.eqb_spec s "") as [->|Hs]; [done|].
  cbn. by destruct (isValid s).
Qed.

(** *** The checkout *)

Ltac not_in_list :=
  rewrite ?not_elem_of_cons; repeat split;
  try apply not_elem_of_nil; try discriminate; try congruence.

Ltac in_list := rewrite ?elem_of_cons; auto 20.

Lemma PRICES_own (k : string) :
  k ∈ ["basic"; "premium"; "complete"] -> truthy (get PRICES k) = true.
Proof.
  intros Hk. repeat (apply elem_of_cons in Hk as [->|Hk]; [reflexivity|]).
  by apply elem_of_nil in Hk.
Qed.

Lemma PRICES_inherited (k : string) :
  k ∈ inherited_keys -> truthy (get PRICES k) = true.
Proof.
  intros Hk. repeat (apply elem_of_cons in Hk as [->|Hk]; [reflexivity|]).
  by apply elem_of_nil in Hk.
Qed.

Lemma PRICES_absent (k : string) :
  k ∉ ["basic"; "premium"; "complete"] -> k ∉ inherited_keys ->
  get PRICES k = VUndefined.
Proof.
  intros Hown Hinh. unfold PRICES, get.
  rewrite !not_elem_of_cons in Hown. destruct Hown as (? & ? & ? & _).
  unfold inherited_keys in Hinh. rewrite !not_elem_of_cons in Hinh.
  destruct Hinh as (Hproto & Hctor & Hmethods).
  rewrite !lookup_insert_ne, lookup_singleton_ne by done.
  apply String.eqb_neq in Hproto, Hctor. rewrite Hproto.
  unfold Object_prototype_get. rewrite Hctor.
  by rewrite bool_decide_eq_false_2.
Qed.

Lemma checkout_answer
    (w : world) (req : request) (others : gmap string value) (id : string) :
  let price := get PRICES id in
  let params := params_for w (VStr id) price in
  serve w (create_checkout_session (posted req "priceId" (VStr id) others)) =
    if negb (truthy price)
    then answered 400 {[ "error" := VStr "Invalid price ID" ]}
    else
      let asked := [ Did (ProcessEnv "FRONTEND_URL");
                     Did (ProcessEnv "FRONTEND_URL");
                     Did (SessionsCreate params) ] in
      let failed err :=
        (asked ++
         [ Did (ConsoleError [VStr "Error creating checkout session:"; VStr err]);
           Did (Respond 500 (Json (VObj
                  {[ "error" := VStr "Failed to create checkout session" ]}))) ],
         Returned tt) in
      match stripe_sessions_create w params with
      | inl err => failed err
      | inr session =>
          if nullish session
          then failed ("TypeError: Cannot read properties of "
                       +:+ to_string session)
          else (asked ++ [ Did (Respond 200 (Json (VObj
                              {[ "url" := get session "url" ]}))) ],
                Returned tt)
      end.
Proof.
  intros price params.
  unfold create_checkout_session, posted, destructure.
  cbn [body set_body nullish]. rewrite get_insert_eq.
  cbn [mbind prog_bind bind try_catch].
  change (to_key (VStr id)) with id.
  change (get PRICES id) with price.
  destruct (truthy price) eqn:Hp; [|reflexivity].
  cbn [negb]. unfold frontend_url.
  cbn [serve run mbind prog_bind bind try_catch call call_or_throw answer fst snd].
  repeat match goal with
         | |- context [stripe_sessions_create w ?p] =>
             lazymatch p with params => fail | _ => change p with params end
         end.

  destruct (stripe_sessions_create w params) as [err|session]; [reflexivity|].
  unfold member. cbn [bind mbind prog_bind]. destruct (nullish session); reflexivity.
Qed.

(** A key that [PRICES] neither owns nor inherits is turned away before
    anything is asked of the processor. *)
Lemma checkout_unknown_rejected
    (w : world) (req : request) (others : gmap string value) (id : string) :
  id ∉ ["basic"; "premium"; "complete"] -> id ∉ inherited_keys ->
  serve w (create_checkout_session (posted req "priceId" (VStr id) others)) =
    answered 400 {[ "error" := VStr "Invalid price ID" ]}.
Proof.
  intros Hown Hinh. rewrite checkout_answer.
  by rewrite (PRICES_absent id Hown Hinh).
Qed.

Lemma checkout_processor_called
    (w : world) (req : request) (others : gmap string value) (id : string) :
  truthy (get PRICES id) = true ->
  let out := serve w (create_checkout_session
                        (posted req "priceId" (VStr id) others)) in
  processor_calls out.1 = [params_for w (VStr id) (get PRICES id)]
  /\ (forall b, (400, b) ∉ responses out.1).
Proof.
  intros Hp out. subst out. rewrite checkout_answer, Hp. cbn [negb].
  destruct (stripe_sessions_create w _) as [err|session];
    [|destruct (nullish session)]; (split; [reflexivity|]);
    intros b; cbn; not_in_list.
Qed.

Example checkout_gold_rejected :
  serve example_world
    (create_checkout_session (posted example_request "priceId" (VStr "gold") ∅)) =
    answered 400 {[ "error" := VStr "Invalid price ID" ]}.
Proof.
  apply checkout_unknown_rejected;
    unfold inherited_keys, Object_prototype_methods; not_in_list.
Qed.

(** [C2] The price id "constructor" is not in the table, and yet
    [PRICES["constructor"]] is the inherited function [Object], which is
    truthy: the handler goes on to ask the processor for a session, with
    the product name "Object" and no amount, and never answers 400. *)
Theorem checkout_constructor_reaches_processor
    (w : world) (req : request) (others : gmap string value) :
  let out := serve w (create_checkout_session
                        (posted req "priceId" (VStr "constructor") others)) in
  ("constructor" ∉ ["basic"; "premium"; "complete"])
  /\ processor_calls out.1 =
       [params_for w (VStr "constructor") (VFun "Object")]
  /\ line_items (params_for w (VStr "constructor") (VFun "Object")) =
       [ {| currency := "usd"; product_name := VStr "Object";
            product_description := VUndefined; unit_amount := VUndefined;
            quantity := 1 |} ]
  /\ (forall b, (400, b) ∉ responses out.1).
Proof.
  intros out. split; [not_in_list|].
  destruct (checkout_processor_called w req others "constructor" eq_refl)
    as [Hcalls Hno400].
  split; [exact Hcalls|]. split; [reflexivity|exact Hno400].
Qed.

(** [C5] For each of the three keys of the price table the handler asks the
    processor for one session with a single line item in usd, quantity 1 and
    the configured amount, and when the processor returns a session it
    answers with that session's url. *)
Theorem checkout_known_tier
    (w : world) (req : request) (others : gmap string value) (id : string) :
  id ∈ ["basic"; "premium"; "complete"] ->
  let out := serve w (create_checkout_session
                        (posted req "priceId" (VStr id) others)) in
  let params := params_for w (VStr id) (get PRICES id) in
  processor_calls out.1 = [params]
  /\ (exists name description,
        line_items params =
          [ {| currency := "usd"; product_name := VStr name;
               product_description := VStr description;
               unit_amount := VNum (configured_amount id);
               quantity := 1 |} ])
  /\ (forall session,
        stripe_sessions_create w params = inr session ->
        nullish session = false ->
        responses out.1 = [(200, Json (VObj {[ "url" := get session "url" ]}))]).
Proof.
  intros Hid out params.
  destruct (checkout_processor_called w req others id (PRICES_own id Hid))
    as [Hcalls _].
  split; [exact Hcalls|]. split.
  - repeat (apply elem_of_cons in Hid as [->|Hid];
            [eexists _, _; reflexivity|]).
    by apply elem_of_nil in Hid.
  - intros session Hs Hn. subst out. rewrite checkout_answer.
    rewrite (PRICES_own id Hid). cbn [negb]. fold params.
    rewrite Hs, Hn. reflexivity.
Qed.

Lemma checkout_known_tier_witness :
  let out := serve example_world
               (create_checkout_session
                  (posted example_request "priceId" (VStr "premium") ∅)) in
  processor_calls out.1 =
    [params_for example_world (VStr "premium") (get PRICES "premium")]
  /\ unit_amount <$> line_items
       (params_for example_world (VStr "premium") (get PRICES "premium"))
     = [VNum 2499]
  /\ responses out.1 =
       [(200, Json (VObj {[ "url" :=
           VStr "https://checkout.stripe.com/c/pay/cs_test_a1" ]}))].
Proof.
  intros out.
  destruct (checkout_known_tier example_world example_request ∅ "premium")
    as (Hcalls & _ & Hurl).
  - in_list.
  - split; [exact Hcalls|]. split; [reflexivity|].
    apply (Hurl _ eq_refl eq_refl).
Defined.

(** *** The webhook *)

Lemma webhook_answer (w : world) (req : request) :
  serve w (ServerRender.webhook req) =
    match verified w req with
    | inl err =>
        (verification w req ++
         [ Did (ConsoleLog [VStr "Webhook signature verification failed:";
                            VStr err]);
           Did (Respond 400 (Text ("Webhook Error: " +:+ err))) ],
         Returned tt)
    | inr event =>
        let session := VObj (data_object event) in
        (verification w req ++
         [ Did (ConsoleLog [VStr "Webhook signature verified successfully"]) ] ++
         (if String.eqb (type event) "checkout.session.completed"
          then
            [ Did (ConsoleLog [VStr "Payment successful for session:";
                               get session "id"]);
              Did NewDate_getFullYear;
              Did MathRandom_toString36;
              Did Date_now;
              Did (ConsoleLog [VStr "Generated access code:"; VStr (minted w)]);
              Did (ConsoleLog [VStr "Customer email:"; ServerRender.customerEmail_of session]);
              Did (ConsoleLog [VStr "Package type:"; ServerRender.packageType_of session]);
              Did (ConsoleLog
                     [VStr ("Access code " +:+ minted w
                            +:+ " generated for "
                            +:+ to_string (ServerRender.customerEmail_of session)
                            +:+ " - " +:+ to_string (ServerRender.packageType_of session))]) ]
          else
            [ Did (ConsoleLog
                     [VStr ("Unhandled event type " +:+ type event)]) ]) ++
         [ Did (Respond 200 (Json (VObj {[ "received" := VBool true ]}))) ],
         Returned tt)
    end.
Proof.
  unfold ServerRender.webhook, verification.
  cbn [serve run mbind prog_bind bind try_catch call call_or_throw answer
       fst snd app].
  fold (verified w req).
  destruct (verified w req) as [err|event]; [reflexivity|].
  cbn [serve run mbind prog_bind bind try_catch call call_or_throw answer
       console_log fst snd app].
  destruct (String.eqb (type event) "checkout.session.completed");
    reflexivity.
Qed.

Lemma webhook_answer_railway (w : world) (req : request) :
  serve w (ServerRailway.webhook req) =
    match verified w req with
    | inl err =>
        (verification w req ++
         [ Did (ConsoleLog [VStr "Webhook signature verification failed.";
                            VStr err]);
           Did (Respond 400 (Text ("Webhook Error: " +:+ err))) ],
         Returned tt)
    | inr event =>
        let session := VObj (data_object event) in
        (verification w req ++
         (if String.eqb (type event) "checkout.session.completed"
          then
            [ Did (ConsoleLog [VStr "Payment successful:"; get session "id"]);
              Did NewDate_getFullYear;
              Did MathRandom_toString36;
              Did Date_now;
              Did (ConsoleLog [VStr "Generated access code:"; VStr (minted w)]) ]
          else
            [ Did (ConsoleLog
                     [VStr ("Unhandled event type " +:+ type event)]) ]) ++
         [ Did (Respond 200 (Json (VObj {[ "received" := VBool true ]}))) ],
         Returned tt)
    end.
Proof.
  unfold ServerRailway.webhook, verification.
  cbn [serve run mbind prog_bind bind try_catch call call_or_throw answer
       fst snd app].
  fold (verified w req).
  destruct (verified w req) as [err|event]; [reflexivity|].
  cbn [serve run mbind prog_bind bind try_catch call call_or_throw answer
       console_log fst snd app].
  destruct (String.eqb (type event) "checkout.session.completed");
    reflexivity.
Qed.

(** [C6] When the signature does not verify, the handler logs the failure
    and answers 400 with the error text, and that is all it does: the
    switch on the event type is not entered and no access code is drawn. *)
Theorem webhook_bad_signature (w : world) (req : request) (err : string) :
  verified w req = inl err ->
  let out := serve w (ServerRender.webhook req) in
  out = (verification w req ++
         [ Did (ConsoleLog [VStr "Webhook signature verification failed:";
                            VStr err]);
           Did (Respond 400 (Text ("Webhook Error: " +:+ err))) ],
         Returned tt)
  /\ responses out.1 = [(400, Text ("Webhook Error: " +:+ err))]
  /\ random_draws out.1 = 0%nat.
Proof.
  intros Hv out. subst out. rewrite webhook_answer, Hv. done.
Qed.

Lemma webhook_bad_signature_witness :
  responses (serve example_world
               (ServerRender.webhook (webhook_request "{}" "t=1,v1=00"))).1 =
    [(400, Text "Webhook Error: No signatures found matching the expected signature for payload")].
Proof.
  destruct (webhook_bad_signature example_world
              (webhook_request "{}" "t=1,v1=00")
              "No signatures found matching the expected signature for payload"
              eq_refl) as (_ & Hr & _).
  exact Hr.
Defined.

(** The other variant does the same, with a full stop in the log line. *)
Lemma webhook_bad_signature_railway (w : world) (req : request) (err : string) :
  verified w req = inl err ->
  serve w (ServerRailway.webhook req) =
    (verification w req ++
     [ Did (ConsoleLog [VStr "Webhook signature verification failed.";
                        VStr err]);
       Did (Respond 400 (Text ("Webhook Error: " +:+ err))) ],
     Returned tt).
Proof. intros Hv. by rewrite webhook_answer_railway, Hv. Qed.

(** [C9] A verified event of any other type is logged as unhandled and
    answered 200 with [{received: true}]; no access code is drawn and
    nothing else is called. *)
Theorem webhook_other_event_ignored (w : world) (req : request) (ev : event) :
  verified w req = inr ev ->
  type ev <> "checkout.session.completed" ->
  let out := serve w (ServerRender.webhook req) in
  out = (verification w req ++
         [ Did (ConsoleLog [VStr "Webhook signature verified successfully"]);
           Did (ConsoleLog [VStr ("Unhandled event type " +:+ type ev)]);
           Did (Respond 200 (Json (VObj {[ "received" := VBool true ]}))) ],
         Returned tt)
  /\ responses out.1 = [(200, Json (VObj {[ "received" := VBool true ]}))]
  /\ random_draws out.1 = 0%nat.
Proof.
  intros Hv Hty out. subst out. rewrite webhook_answer, Hv.
  apply String.eqb_neq in Hty. rewrite Hty. done.
Qed.

Lemma webhook_other_event_ignored_witness :
  responses (serve (accepting_world refund_event example_world)
               (ServerRender.webhook (webhook_request "{}" "t=1,v1=00"))).1 =
    [(200, Json (VObj {[ "received" := VBool true ]}))].
Proof.
  destruct (webhook_other_event_ignored
              (accepting_world refund_event example_world)
              (webhook_request "{}" "t=1,v1=00") refund_event eq_refl)
    as (_ & Hr & _).
  - discriminate.
  - exact Hr.
Defined.

(** A verified [checkout.session.completed] draws exactly one code, the one
    the clock and the random source of the moment give, and answers 200. *)
Lemma webhook_mints_once (w : world) (req : request) (ev : event) :
  verified w req = inr ev ->
  type ev = "checkout.session.completed" ->
  let out := serve w (ServerRender.webhook req) in
  random_draws out.1 = 1%nat
  /\ Did (ConsoleLog [VStr "Generated access code:"; VStr (minted w)]) ∈ out.1
  /\ responses out.1 = [(200, Json (VObj {[ "received" := VBool true ]}))].
Proof.
  intros Hv Hty out. subst out. rewrite webhook_answer, Hv, Hty.
  split; [done|]. split; [|done]. cbn. in_list.
Qed.

(** Both hold of the other variant as well. *)
Lemma webhook_other_event_ignored_railway
    (w : world) (req : request) (ev : event) :
  verified w req = inr ev ->
  type ev <> "checkout.session.completed" ->
  serve w (ServerRailway.webhook req) =
    (verification w req ++
     [ Did (ConsoleLog [VStr ("Unhandled event type " +:+ type ev)]);
       Did (Respond 200 (Json (VObj {[ "received" := VBool true ]}))) ],
     Returned tt).
Proof.
  intros Hv Hty. rewrite webhook_answer_railway, Hv.
  apply String.eqb_neq in Hty. by rewrite Hty.
Qed.

Lemma webhook_mints_once_railway (w : world) (req : request) (ev : event) :
  verified w req = inr ev ->
  type ev = "checkout.session.completed" ->
  let out := serve w (ServerRailway.webhook req) in
  random_draws out.1 = 1%nat
  /\ Did (ConsoleLog [VStr "Generated access code:"; VStr (minted w)]) ∈ out.1
  /\ responses out.1 = [(200, Json (VObj {[ "received" := VBool true ]}))].
Proof.
  intros Hv Hty out. subst out. rewrite webhook_answer_railway, Hv, Hty.
  split; [done|]. split; [|done]. cbn. in_list.
Qed.

(** *** The shape of an access code *)

Example one_half_in_radix_36 : toString36 1 2 = "0.i".
Proof. reflexivity. Qed.

Example three_eighths_in_radix_36 : toString36 3 8 = "0.di".
Proof. reflexivity. Qed.

Example short_random_part : toUpperCase (substring "0.i" 2 8) = "I".
Proof. reflexivity. Qed.

(** [C3] When [Math.random()] is 1/2 its radix-36 text is "0.i", the random
    part of the code is the single character "I", and the code minted for a
    verified [checkout.session.completed] is "WN-2025-I-0123": one code is
    drawn, and it is not of the form WN-<4 digits>-<6 alphanumerics>-<4
    digits>. *)
Theorem webhook_mints_short_code (w : world) (req : request) (ev : event) :
  verified w req = inr ev ->
  type ev = "checkout.session.completed" ->
  getFullYear w = 2025 ->
  random_toString36 w = "0.i" ->
  now w = 1748779200123 ->
  let out := serve w (ServerRender.webhook req) in
  random_draws out.1 = 1%nat
  /\ Did (ConsoleLog [VStr "Generated access code:"; VStr "WN-2025-I-0123"])
       ∈ out.1
  /\ well_formed_code "WN-2025-I-0123" = false.
Proof.
  intros Hv Hty Hyear Hrandom Hnow out.
  destruct (webhook_mints_once w req ev Hv Hty) as (Hone & Hlog & _).
  split; [exact Hone|]. split; [|reflexivity].
  unfold minted in Hlog. rewrite Hyear, Hrandom, Hnow in Hlog. exact Hlog.
Qed.

Lemma webhook_mints_short_code_witness :
  Did (ConsoleLog [VStr "Generated access code:"; VStr "WN-2025-I-0123"])
    ∈ (serve half_world
         (ServerRender.webhook (webhook_request "{}" "t=1,v1=00"))).1
  /\ well_formed_code "WN-2025-I-0123" = false.
Proof.
  destruct (webhook_mints_short_code half_world
              (webhook_request "{}" "t=1,v1=00") completed_event
              eq_refl eq_refl eq_refl eq_refl eq_refl) as (_ & Hlog & Hform).
  split; [exact Hlog|exact Hform].
Defined.

(** *** Minting, then validating *)

Lemma access_code_prefix (year millis : Z) (random36 : string) :
  startsWith (access_code year random36 millis) "WN-" = true.
Proof.
  unfold startsWith, access_code.
  match goal with
  | |- String.prefix _ ("WN" +:+ "-" +:+ ?rest) = true =>
      change ("WN" +:+ "-" +:+ rest) with (String "W" (String "N" (String "-" rest)));
      by destruct rest
  end.
Qed.

Lemma len_access_code (year millis : Z) (random36 : string) :
  len (access_code year random36 millis) =
    5 + len (Number_toString year)
      + len (toUpperCase (substring random36 2 8))
      + len (slice (Number_toString millis) (-4)).
Proof.
  unfold access_code. rewrite !len_append.
  change (len "WN") with 2. change (len "-") with 1. lia.
Qed.

(** A minted code passes the validator exactly when its three variable
    parts have five characters between them. *)
Lemma access_code_valid_iff (year millis : Z) (random36 : string) :
  isValid (access_code year random36 millis) = true <->
  5 <= len (Number_toString year)
       + len (toUpperCase (substring random36 2 8))
       + len (slice (Number_toString millis) (-4)).
Proof.
  rewrite isValid_spec, len_access_code, access_code_prefix. lia.
Qed.

Lemma len_timestamp_pos (millis : Z) :
  1 <= len (slice (Number_toString millis) (-4)).
Proof.
  rewrite (len_slice_last _ 4) by lia.
  pose proof (len_Number_toString_pos millis). lia.
Qed.

Lemma generateAccessCode_answer (w : world) :
  serve w generateAccessCode =
    ([Did NewDate_getFullYear; Did MathRandom_toString36; Did Date_now],
     Returned (minted w)).
Proof. reflexivity. Qed.

Lemma len_Number_toString_neg (n : Z) :
  n <= -100 -> 4 <= len (Number_toString n).
Proof.
  intros Hn. unfold len, Number_toString, pretty, pretty_Z.
  destruct n as [|p|p]; [lia|lia|].
  rewrite length_append. change (String.length "-") with 1%nat.
  unfold pretty, pretty_positive, pretty, pretty_N. case_decide; [done|].
  assert (100 <= N.pos p)%N as Hp by lia. clear Hn. revert Hp.
  generalize (N.pos p). intros x Hx.
  assert (10 <= x `div` 10)%N by (apply N.div_le_lower_bound; lia).
  assert (1 <= (x `div` 10) `div` 10)%N by (apply N.div_le_lower_bound; lia).
  rewrite 2!pretty_N_go_step by lia.
  match goal with |- context [pretty_N_go ?y ?s] =>
    pose proof (length_pretty_N_go_pos y s ltac:(lia)) as H3;
    change (String.length s) with 2%nat in H3 end.
  lia.
Qed.

(** The timestamp part has its four characters unless [Date.now()] lies
    within a second of the epoch. *)
Lemma len_timestamp_4 (millis : Z) :
  millis <= -100 \/ 1000 <= millis ->
  len (slice (Number_toString millis) (-4)) = 4.
Proof.
  intros Hm. rewrite (len_slice_last _ 4) by lia.
  destruct Hm as [Hm|Hm].
  - pose proof (len_Number_toString_neg millis Hm). lia.
  - pose proof (len_Number_toString_4 millis Hm). lia.
Qed.

(** Within two days of the epoch the year is 1969 or 1970. *)
Lemma year_near_epoch (t : Z) :
  -3 * msPerDay <= t < 3 * msPerDay ->
  year_of_millis t = 1969 \/ year_of_millis t = 1970.
Proof.
  unfold year_of_millis, msPerDay. intros Ht.
  assert (-3 <= t `div` 86400000 < 3) as Hd.
  { split; [apply Z.div_le_lower_bound; lia
           |apply Z.div_lt_upper_bound; lia]. }
  generalize dependent (t `div` 86400000). intros d Hd.
  assert (d = -3 \/ d = -2 \/ d = -1 \/ d = 0 \/ d = 1 \/ d = 2) as Hcases
    by lia.
  destruct Hcases as [->|[->|[->|[->|[->| ->]]]]]; vm_compute; auto.
Qed.

(** With the two readings of one clock the variable parts of the code have
    five characters between them: either the timestamp has four digits, or
    the clock stands within a second of the epoch and the year has four. *)
Lemma one_clock_five_characters (w : world) :
  one_clock w ->
  5 <= len (Number_toString (getFullYear w))
       + len (toUpperCase (substring (random_toString36 w) 2 8))
       + len (slice (Number_toString (now w)) (-4)).
Proof.
  intros (instant & zone & Hi & Hz & Hyear).
  pose proof (len_nonneg (toUpperCase (substring (random_toString36 w) 2 8))).
  pose proof (len_Number_toString_pos (getFullYear w)).
  pose proof (len_timestamp_pos (now w)).
  destruct (decide (now w <= -100 \/ 1000 <= now w)) as [Hfar|Hnear].
  - rewrite (len_timestamp_4 _ Hfar). lia.
  - unfold msPerDay in Hi, Hz.
    destruct (year_near_epoch (instant + zone)) as [Hy|Hy];
      [unfold msPerDay; lia| |];
      rewrite Hyear, Hy;
      [change (len (Number_toString 1969)) with 4
      |change (len (Number_toString 1970)) with 4]; lia.
Qed.

(** [C10] The code [generateAccessCode] returns is accepted by the
    validator: with the year and the timestamp read from one clock,
    whatever the random draw, it starts with "WN-" and has length at least
    10, and POST /api/validate-code answers it with [valid: true], in
    either variant. *)
Theorem minted_code_validates
    (w : world) (req : request) (others : gmap string value) :
  one_clock w ->
  exists code,
    (serve w generateAccessCode).2 = Returned code
    /\ startsWith code "WN-" = true
    /\ 10 <= len code
    /\ isValid code = true
    /\ serve w (ServerRender.validate_code
                  (posted req "code" (VStr code) others)) =
         answered 200
           {[ "valid" := VBool true;
              "message" := VStr "Access code validated successfully";
              "code" := VStr code ]}
    /\ serve w (ServerRailway.validate_code
                  (posted req "code" (VStr code) others)) =
         answered 200
           {[ "valid" := VBool true;
              "message" := VStr "Access code is valid";
              "code" := VStr code ]}.
Proof.
  intros Hclock. exists (minted w). rewrite generateAccessCode_answer.
  pose proof (one_clock_five_characters w Hclock) as Hfive.
  assert (10 <= len (minted w)) as Hlen.
  { unfold minted. rewrite len_access_code. lia. }
  assert (isValid (minted w) = true) as Hvalid.
  { apply isValid_spec. split; [apply access_code_prefix|exact Hlen]. }
  split; [done|]. split; [apply access_code_prefix|]. split; [exact Hlen|].
  split; [exact Hvalid|].
  rewrite validate_code_answer, validate_code_format_only_railway, Hvalid.
  split; reflexivity.
Qed.

Lemma minted_code_validates_witness :
  one_clock half_world
  /\ exists code,
       (serve half_world generateAccessCode).2 = Returned code
       /\ startsWith code "WN-" = true
       /\ 10 <= len code
       /\ isValid code = true
       /\ serve half_world
            (ServerRender.validate_code
               (posted example_request "code" (VStr code) ∅)) =
            answered 200
              {[ "valid" := VBool true;
                 "message" := VStr "Access code validated successfully";
                 "code" := VStr code ]}
       /\ serve half_world
            (ServerRailway.validate_code
               (posted example_request "code" (VStr code) ∅)) =
            answered 200
              {[ "valid" := VBool true;
                 "message" := VStr "Access code is valid";
                 "code" := VStr code ]}.
Proof.
  assert (one_clock half_world) as Hclock.
  { exists 1748779200123, 0. unfold msPerDay.
    split; [cbn; lia|]. split; [lia|]. vm_compute. reflexivity. }
  split; [exact Hclock|].
  exact (minted_code_validates half_world example_request ∅ Hclock).
Defined.

(** *** Running composed programs *)

Section Run.
Context {E : Type -> Type} (ans : forall X, E X -> X).

Lemma run_bind {A B} (p : prog E A) (f : A -> prog E B) :
  run ans (bind p f) =
    match (run ans p).2 with
    | Returned x => ((run ans p).1 ++ (run ans (f x)).1, (run ans (f x)).2)
    | Thrown err => ((run ans p).1, Thrown err)
    end.
Proof.
  induction p as [x|err|X e k IH]; cbn [bind run fst snd].
  - by destruct (run ans (f x)).
  - done.
  - rewrite IH. by destruct (run ans (k (ans X e))).2.
Qed.

Lemma run_try_catch {A} (p : prog E A) (h : string -> prog E A) :
  run ans (try_catch p h) =
    match (run ans p).2 with
    | Returned x => run ans p
    | Thrown err => ((run ans p).1 ++ (run ans (h err)).1, (run ans (h err)).2)
    end.
Proof.
  induction p as [x|err|X e k IH]; cbn [try_catch run fst snd].
  - done.
  - by destruct (run ans (h err)).
  - rewrite IH. by destruct (run ans (k (ans X e))) as [t []].
Qed.

(** A handler that returns is not disturbed by a [catch] around it. *)
Lemma run_try_catch_returned {A} (p : prog E A) (h : string -> prog E A) x :
  (run ans p).2 = Returned x -> run ans (try_catch p h) = run ans p.
Proof. intros Hp. by rewrite run_try_catch, Hp. Qed.
End Run.

(** *** The order of the body parsers *)

Lemma webhook_returns (w : world) (req : request) :
  (serve w (ServerRender.webhook req)).2 = Returned tt.
Proof.
  rewrite webhook_answer. by destruct (verified w req).
Qed.

Lemma webhook_returns_railway (w : world) (req : request) :
  (serve w (ServerRailway.webhook req)).2 = Returned tt.
Proof.
  rewrite webhook_answer_railway. by destruct (verified w req).
Qed.

Lemma webhook_payload (w : world) (req : request) :
  verifier_payloads (serve w (ServerRender.webhook req)).1 = [body req].
Proof.
  rewrite webhook_answer.
  destruct (verified w req) as [err|ev]; [done|].
  cbn. by destruct (String.eqb (type ev) "checkout.session.completed").
Qed.

Lemma webhook_payload_railway (w : world) (req : request) :
  verifier_payloads (serve w (ServerRailway.webhook req)).1 = [body req].
Proof.
  rewrite webhook_answer_railway.
  destruct (verified w req) as [err|ev]; [done|].
  cbn. by destruct (String.eqb (type ev) "checkout.session.completed").
Qed.

Lemma webhook_never_parses (w : world) (req : request) :
  List.filter is_parse (serve w (ServerRender.webhook req)).1 = [].
Proof.
  rewrite webhook_answer.
  destruct (verified w req) as [err|ev]; [done|].
  cbn. by destruct (String.eqb (type ev) "checkout.session.completed").
Qed.

(** In the variant that registers the webhook route first, the bytes of a
    JSON request reach the verifier as they came, and [JSON.parse] is not
    run on them: for a body that is not empty and within the limit of the
    parser, sent without a content encoding under a JSON content type, with
    or without a charset. *)
Lemma webhook_raw_body_reaches_verifier
    (w : world) (hs : gmap string string) (bytes type : string) :
  hs !! "content-type" = Some type ->
  type ∈ json_content_types ->
  hs !! "content-encoding" = None ->
  within_limit bytes ->
  let out := serve w (dispatch ServerRender.app
                        (Wire.incoming "POST" "/api/webhook" hs bytes)) in
  verifier_payloads out.1 = [VBuffer bytes]
  /\ List.filter is_parse out.1 = [].
Proof.
  intros Hct Htype _ _ out. subst out. unfold ServerRender.app, Wire.incoming.
  cbn [dispatch cors method path String.eqb Ascii.eqb Bool.eqb andb
       mbind prog_bind bind through express_raw parsed].
  unfold is_json, default_body. cbn [set_body headers]. rewrite Hct.
  assert (String.eqb type "application/json"
          || startsWith type "application/json;" = true) as ->.
  { unfold json_content_types in Htype.
    rewrite !elem_of_cons, elem_of_nil in Htype.
    destruct Htype as [->|[->|[->|[->|[]]]]]; reflexivity. }
  cbn [String.eqb Ascii.eqb Bool.eqb orb negb body parsed raw or_else truthy
       method path headers mbind prog_bind bind invoke].
  unfold serve.
  erewrite run_try_catch_returned by apply webhook_returns.
  split; [apply webhook_payload|apply webhook_never_parses].
Qed.

(** [C8] In the variant that installs [express.json()] before the routes, a
    JSON request to /api/webhook is first run through [JSON.parse]: a body
    that does not parse is answered 400 and never verified, and for one that
    parses the verifier is handed the parsed value in place of the bytes. *)
Theorem webhook_body_parsed_before_verification
    (w : world) (hs : gmap string string) (bytes : string) :
  hs !! "content-type" = Some "application/json" ->
  let out := serve w (dispatch ServerRailway.app
                        (Wire.incoming "POST" "/api/webhook" hs bytes)) in
  (exists rest, out.1 = Did (JSON_parse bytes) :: rest)
  /\ match parse_json w bytes with
     | Some v => verifier_payloads out.1 = [v]
     | None => verifier_payloads out.1 = []
               /\ responses out.1 = [(400, Text "Bad Request")]
     end
  /\ (parse_json w bytes <> Some (VBuffer bytes) ->
      VBuffer bytes ∉ verifier_payloads out.1).
Proof.
  intros Hct out.
  cut ((exists rest, out.1 = Did (JSON_parse bytes) :: rest)
       /\ match parse_json w bytes with
          | Some v => verifier_payloads out.1 = [v]
          | None => verifier_payloads out.1 = []
                    /\ responses out.1 = [(400, Text "Bad Request")]
          end).
  { intros [Hfirst Hpayload]. split; [exact Hfirst|]. split; [exact Hpayload|].
    intros Hne. destruct (parse_json w bytes) as [v|].
    - rewrite Hpayload. apply not_elem_of_cons. split; [congruence|].
      apply not_elem_of_nil.
    - destruct Hpayload as [-> _]. apply not_elem_of_nil. }
  subst out. unfold ServerRailway.app, Wire.incoming.
  cbn [dispatch cors method path String.eqb Ascii.eqb Bool.eqb andb
       mbind prog_bind bind through express_json parsed].
  unfold is_json, default_body. cbn [set_body headers]. rewrite Hct.
  cbn [String.eqb Ascii.eqb Bool.eqb orb negb body parsed raw or_else truthy
       method path headers mbind prog_bind bind call serve run answer
       fst snd].
  cbn [raw set_body method path headers body parsed].
  split; [by eexists|].
  destruct (parse_json w bytes) as [v|]; [|done].
  cbn [dispatch method path set_body String.eqb Ascii.eqb Bool.eqb andb
       mbind prog_bind bind through express_raw parsed invoke
       verifier_payloads omap list_omap].
  erewrite run_try_catch_returned by apply webhook_returns_railway.
  apply webhook_payload_railway.
Qed.

Lemma webhook_body_parsed_before_verification_witness :
  verifier_payloads
    (serve (parsing_world (VObj {[ "type" := VStr "checkout.session.completed" ]})
                          example_world)
       (dispatch ServerRailway.app
          (Wire.incoming "POST" "/api/webhook"
             {[ "content-type" := "application/json" ]} "{}"))).1 =
    [VObj {[ "type" := VStr "checkout.session.completed" ]}].
Proof.
  destruct (webhook_body_parsed_before_verification
              (parsing_world (VObj {[ "type" := VStr "checkout.session.completed" ]})
                             example_world)
              {[ "content-type" := "application/json" ]} "{}")
    as (_ & Hp & _); [reflexivity|].
  exact Hp.
Defined.

(** *** The access step of the wizard against the backend *)

(** One step of routing a JSON request whose body has not been read. *)
Ltac route :=
  unfold Wire.incoming, json_headers;
  cbn [dispatch cors method path String.eqb Ascii.eqb Bool.eqb andb
       mbind prog_bind bind through express_json parsed];
  unfold is_json, default_body; cbn [set_body headers];
  rewrite lookup_singleton_eq;
  cbn [String.eqb Ascii.eqb Bool.eqb orb negb body parsed raw or_else truthy
       method path headers mbind prog_bind bind call serve run answer
       fst snd set_body].

Lemma validate_code_without_code (w : world) (req : request) (accessCode : string) :
  serve w (ServerRender.validate_code
             (set_body req (access_document accessCode) true)) =
    answered 400 {[ "error" := VStr "Access code is required" ]}.
Proof. reflexivity. Qed.

Lemma validate_code_without_code_railway
    (w : world) (req : request) (accessCode : string) :
  serve w (ServerRailway.validate_code
             (set_body req (access_document accessCode) true)) =
    answered 400 {[ "error" := VStr "Access code is required" ]}.
Proof. reflexivity. Qed.

(** Sent to the path the server registers, the body of the access step is
    answered by the handler: 400, the code is missing. *)
Lemma routed_submission_lacks_code (w : world) (accessCode text : string) :
  parse_json w text = Some (access_document accessCode) ->
  responses (serve w (dispatch ServerRender.app
               (Wire.incoming "POST" "/api/validate-code" json_headers text))).1 =
    [(400, Json (VObj {[ "error" := VStr "Access code is required" ]}))].
Proof.
  intros Hparse. unfold ServerRender.app. route. rewrite Hparse. reflexivity.
Qed.

Lemma routed_submission_lacks_code_railway (w : world) (accessCode text : string) :
  parse_json w text = Some (access_document accessCode) ->
  responses (serve w (dispatch ServerRailway.app
               (Wire.incoming "POST" "/api/validate-code" json_headers text))).1 =
    [(400, Json (VObj {[ "error" := VStr "Access code is required" ]}))].
Proof.
  intros Hparse. unfold ServerRailway.app. route. rewrite Hparse. reflexivity.
Qed.

Lemma access_step_request (b : App.browser) (accessCode : string) :
  App.requests (App.handle b (App.handleAccessCodeSubmit accessCode)).1 =
    [(App.validate_code_url,
      App.post_json (App.stringify b (access_document accessCode)))].
Proof.
  unfold App.handle, App.handleAccessCodeSubmit, access_document.
  cbn [run mbind prog_bind bind try_catch call call_or_throw App.answer
       fst snd App.trackEvent].
  destruct (App.fetch b _ _) as [err|r]; [reflexivity|].
  cbn [bind try_catch]. destruct (App.ok r); reflexivity.
Qed.

(** [C4] Whatever string the access step submits, the body it posts is the
    serialisation of [{accessCode}], an object with no [code]: routed to the
    validate-code handler, in either variant of the server, such a body is
    answered 400, the access code is required. *)
Theorem access_submission_lacks_code
    (w : world) (b : App.browser) (accessCode : string) :
  let doc := access_document accessCode in
  let text := App.stringify b doc in
  parse_json w text = Some doc ->
  App.requests (App.handle b (App.handleAccessCodeSubmit accessCode)).1 =
    [(App.validate_code_url, App.post_json text)]
  /\ get doc "code" = VUndefined
  /\ (forall req,
        serve w (ServerRender.validate_code (set_body req doc true)) =
          answered 400 {[ "error" := VStr "Access code is required" ]})
  /\ (forall req,
        serve w (ServerRailway.validate_code (set_body req doc true)) =
          answered 400 {[ "error" := VStr "Access code is required" ]})
  /\ responses (serve w (dispatch ServerRender.app
                  (Wire.incoming "POST" "/api/validate-code" json_headers text))).1 =
       [(400, Json (VObj {[ "error" := VStr "Access code is required" ]}))]
  /\ responses (serve w (dispatch ServerRailway.app
                  (Wire.incoming "POST" "/api/validate-code" json_headers text))).1 =
       [(400, Json (VObj {[ "error" := VStr "Access code is required" ]}))].
Proof.
  intros doc text Hparse.
  split; [apply access_step_request|]. split; [reflexivity|].
  split; [intros req; apply validate_code_without_code|].
  split; [intros req; apply validate_code_without_code_railway|].
  split.
  - exact (routed_submission_lacks_code w accessCode text Hparse).
  - exact (routed_submission_lacks_code_railway w accessCode text Hparse).
Qed.

Lemma access_submission_lacks_code_witness :
  App.requests (App.handle example_browser
                  (App.handleAccessCodeSubmit example_code)).1 =
    [(App.validate_code_url, App.post_json example_text)]
  /\ responses (serve example_backend (dispatch ServerRender.app
                  (Wire.incoming "POST" "/api/validate-code" json_headers
                     example_text))).1 =
       [(400, Json (VObj {[ "error" := VStr "Access code is required" ]}))].
Proof.
  destruct (access_submission_lacks_code example_backend example_browser
              example_code eq_refl) as (Hreq & _ & _ & _ & Hrouted & _).
  split; [exact Hreq|exact Hrouted].
Defined.

(** The access step posts to /validate-code. *)
Lemma access_request (text : string) :
  Wire.to_request App.validate_code_url (App.post_json text) =
    Wire.incoming "POST" "/validate-code" json_headers text.
Proof. vm_compute. reflexivity. Qed.

(** No route of the application is registered for POST /validate-code. *)
Lemma no_route_for_validate_code (w : world) (doc : value) (text : string) :
  parse_json w text = Some doc ->
  serve w (dispatch ServerRender.app
             (Wire.incoming "POST" "/validate-code" json_headers text)) =
    ([ Did (JSON_parse text);
       Did (Respond 404 (Text "Cannot POST /validate-code")) ], Returned tt).
Proof.
  intros Hparse. unfold ServerRender.app. route. rewrite Hparse. reflexivity.
Qed.

Lemma no_route_for_validate_code_railway (w : world) (doc : value) (text : string) :
  parse_json w text = Some doc ->
  serve w (dispatch ServerRailway.app
             (Wire.incoming "POST" "/validate-code" json_headers text)) =
    ([ Did (JSON_parse text);
       Did (Respond 404 (Text "Cannot POST /validate-code")) ], Returned tt).
Proof.
  intros Hparse. unfold ServerRailway.app. route. rewrite Hparse. reflexivity.
Qed.

(** With an application behind [fetch] that answers the access step 404,
    the wizard alerts and stays where it is. *)
Lemma access_step_unrouted
    (app : list layer) (w : world) (b : App.browser) (accessCode : string) :
  let text := App.stringify b (access_document accessCode) in
  serve w (dispatch app
             (Wire.incoming "POST" "/validate-code" json_headers text)) =
    ([ Did (JSON_parse text);
       Did (Respond 404 (Text "Cannot POST /validate-code")) ], Returned tt) ->
  let t := (App.handle (against app w b)
              (App.handleAccessCodeSubmit accessCode)).1 in
  Wire.backend app w App.validate_code_url (App.post_json text) =
    inr {| App.status := 404; App.json := None |}
  /\ App.steps t = []
  /\ App.alerts t =
       ["Invalid access code. Please check your code and try again."].
Proof.
  intros text Hroute t.
  assert (Wire.backend app w App.validate_code_url (App.post_json text) =
          inr {| App.status := 404; App.json := None |}) as Hback.
  { unfold Wire.backend. by rewrite access_request, Hroute. }
  split; [exact Hback|].
  subst t. unfold App.handle, App.handleAccessCodeSubmit.
  cbn [run mbind prog_bind bind try_catch call call_or_throw App.answer
       against App.fetch App.stringify fst snd App.trackEvent].
  change (VObj {[ "accessCode" := VStr accessCode ]})
    with (access_document accessCode).
  change (App.stringify b (access_document accessCode)) with text.
  rewrite !Hback.
  cbn [run mbind prog_bind bind try_catch call App.answer fst snd App.ok
       App.status Z.leb Z.compare Pos.compare Pos.compare_cont andb
       App.trackEvent App.alert].
  split; reflexivity.
Qed.

(** As the sources stand, in either variant, the access step cannot leave
    the access stage: its request is not routed to the handler. *)
Lemma access_step_stays
    (w : world) (b : App.browser) (accessCode : string) :
  let doc := access_document accessCode in
  parse_json w (App.stringify b doc) = Some doc ->
  App.steps (App.handle (against ServerRender.app w b)
               (App.handleAccessCodeSubmit accessCode)).1 = []
  /\ App.steps (App.handle (against ServerRailway.app w b)
                  (App.handleAccessCodeSubmit accessCode)).1 = [].
Proof.
  intros doc Hparse. split.
  - apply (access_step_unrouted ServerRender.app w b accessCode).
    by apply (no_route_for_validate_code w doc).
  - apply (access_step_unrouted ServerRailway.app w b accessCode).
    by apply (no_route_for_validate_code_railway w doc).
Qed.

(** The submission of a well-formed code, as the server sees it: the body
    parser reads it, no route matches, Express answers 404.  The
    validate-code handler answers nothing. *)
Lemma access_submission_answered_404 :
  serve example_backend
    (dispatch ServerRender.app
       (Wire.to_request App.validate_code_url (App.post_json example_text))) =
    ([ Did (JSON_parse example_text);
       Did (Respond 404 (Text "Cannot POST /validate-code")) ], Returned tt)
  /\ serve example_backend
       (dispatch ServerRailway.app
          (Wire.to_request App.validate_code_url (App.post_json example_text))) =
       ([ Did (JSON_parse example_text);
          Did (Respond 404 (Text "Cannot POST /validate-code")) ], Returned tt)
  /\ App.requests (App.handle example_browser
                     (App.handleAccessCodeSubmit example_code)).1 =
       [(App.validate_code_url, App.post_json example_text)].
Proof. repeat split; vm_compute; reflexivity. Qed.

(** *** Submitting the form *)

Lemma missingFields_filled (fd : App.FormData) :
  all_filled fd -> App.missingFields fd = [].
Proof.
  intros (Hb & Hg & Hd & Hv & Hh).
  apply String.eqb_neq in Hb, Hg, Hd, Hv, Hh.
  unfold App.missingFields, App.requiredFields.
  cbn [List.filter snd]. by rewrite Hb, Hg, Hd, Hv, Hh.
Qed.

(** [C7] With the five required fields filled, the handler sets the stage
    to 'generating' and posts the form.  The stage then becomes 'complete'
    exactly when the response is ok (a status from 200 to 299) and its body
    parses as JSON; on any other response, and when the request fails, the
    stage goes back to 'form' and the alert is shown. *)
Theorem form_submit_stages
    (b : App.browser) (fd : App.FormData) (accessCode : string) :
  all_filled fd ->
  let text := App.stringify b (form_document fd accessCode) in
  let t := (App.handle b (App.handleFormSubmit fd accessCode)).1 in
  App.requests t = [(App.generate_newspaper_url, App.post_json text)]
  /\ match App.fetch b App.generate_newspaper_url (App.post_json text) with
     | inr r =>
         if generated r
         then App.steps t = [App.generating; App.complete] /\ App.alerts t = []
         else App.steps t = [App.generating; App.form]
              /\ App.alerts t = ["Error generating newspaper. Please try again."]
     | inl _ =>
         App.steps t = [App.generating; App.form]
         /\ App.alerts t = ["Error generating newspaper. Please try again."]
     end.
Proof.
  intros Hfilled text t. subst t.
  unfold App.handle, App.handleFormSubmit.
  rewrite (missingFields_filled fd Hfilled).
  unfold try_catch_finally, App.response_json, generated.
  cbn [length Nat.ltb Nat.leb run mbind prog_bind bind try_catch call
       call_or_throw App.answer fst snd App.trackEvent App.setIsGenerating
       App.setCurrentStep].
  change (VObj (<[ "accessCode" := VStr accessCode ]> (App.to_object fd)))
    with (form_document fd accessCode).
  change (App.stringify b (form_document fd accessCode)) with text.
  destruct (App.fetch b App.generate_newspaper_url (App.post_json text))
    as [err|r]; [repeat split; reflexivity|].
  cbn [bind try_catch]. destruct (App.ok r); [|repeat split; reflexivity].
  destruct (App.json r); repeat split; reflexivity.
Qed.

Lemma form_submit_stages_witness :
  App.steps (App.handle (answering {| App.status := 200; App.json := Some newspaper |})
               (App.handleFormSubmit example_form example_code)).1 =
    [App.generating; App.complete]
  /\ App.steps (App.handle (answering {| App.status := 500; App.json := None |})
                  (App.handleFormSubmit example_form example_code)).1 =
       [App.generating; App.form].
Proof.
  split.
  - destruct (form_submit_stages
                (answering {| App.status := 200; App.json := Some newspaper |})
                example_form example_code
                ltac:(repeat split; vm_compute; discriminate))
      as (_ & Hsteps & _).
    exact Hsteps.
  - destruct (form_submit_stages
                (answering {| App.status := 500; App.json := None |})
                example_form example_code
                ltac:(repeat split; vm_compute; discriminate))
      as (_ & Hsteps & _).
    exact Hsteps.
Defined.

(** A 201 with a JSON body is not a 200 response, and the wizard reaches
    'complete' without an alert; a 200 whose body is not JSON sends it back
    to 'form'. *)
Lemma form_submit_201_completes :
  let created := {| App.status := 201; App.json := Some newspaper |} in
  let garbled := {| App.status := 200; App.json := None |} in
  all_filled example_form
  /\ App.steps (App.handle (answering created)
                  (App.handleFormSubmit example_form example_code)).1 =
       [App.generating; App.complete]
  /\ App.alerts (App.handle (answering created)
                   (App.handleFormSubmit example_form example_code)).1 = []
  /\ App.steps (App.handle (answering garbled)
                  (App.handleFormSubmit example_form example_code)).1 =
       [App.generating; App.form]
  /\ App.alerts (App.handle (answering garbled)
                   (App.handleFormSubmit example_form example_code)).1 =
       ["Error generating newspaper. Please try again."].
Proof.
  intros created garbled.
  split; [repeat split; vm_compute; discriminate|].
  repeat split; vm_compute; reflexivity.
Qed.

(** *** When the minted code has the advertised shape *)

Lemma is_digit_pretty_N_char (x : N) : is_digit (pretty_N_char x) = true.
Proof. unfold pretty_N_char. by repeat case_match. Qed.

Lemma pretty_N_go_suffix (x : N) (s : string) :
  exists p, pretty_N_go x s = p +:+ s.
Proof.
  revert s. induction (N.lt_wf_0 x) as [x _ IH]; intros s.
  destruct (decide (x = 0%N)) as [->|Hx].
  { exists "". by rewrite pretty_N_go_0. }
  rewrite pretty_N_go_step by lia.
  destruct (IH (x `div` 10)%N ltac:(apply N.div_lt; lia)
               (String (pretty_N_char (x `mod` 10)) s)) as [p ->].
  exists (p +:+ String (pretty_N_char (x `mod` 10)) "").
  induction p as [|c p IHp]; [done|].
  change (String c p +:+ ?r) with (String c (p +:+ r)). by rewrite IHp.
Qed.

Lemma pretty_ends_in_last_four (x : N) :
  (1000 <= x)%N -> exists p, pretty x = p +:+ last_four x.
Proof.
  intros Hx. unfold pretty, pretty_N. case_decide; [lia|].
  assert (100 <= x `div` 10)%N by (apply N.div_le_lower_bound; lia).
  assert (10 <= (x `div` 10) `div` 10)%N by (apply N.div_le_lower_bound; lia).
  assert (1 <= ((x `div` 10) `div` 10) `div` 10)%N
    by (apply N.div_le_lower_bound; lia).
  rewrite 4!pretty_N_go_step by lia.
  assert ((x `div` 10) `div` 10 = x `div` 100)%N as ->
    by (by rewrite N.Div0.div_div).
  assert ((x `div` 100) `div` 10 = x `div` 1000)%N as ->
    by (by rewrite N.Div0.div_div).
  apply pretty_N_go_suffix.
Qed.

Lemma pretty_four_digits (x : N) :
  (1000 <= x <= 9999)%N -> pretty x = last_four x.
Proof.
  intros Hx. unfold pretty, pretty_N. case_decide; [lia|].
  assert (100 <= x `div` 10)%N by (apply N.div_le_lower_bound; lia).
  assert (10 <= (x `div` 10) `div` 10)%N by (apply N.div_le_lower_bound; lia).
  assert (1 <= ((x `div` 10) `div` 10) `div` 10)%N
    by (apply N.div_le_lower_bound; lia).
  rewrite 4!pretty_N_go_step by lia.
  assert ((x `div` 10) `div` 10 = x `div` 100)%N as ->
    by (by rewrite N.Div0.div_div).
  assert ((x `div` 100) `div` 10 = x `div` 1000)%N as ->
    by (by rewrite N.Div0.div_div).
  assert ((x `div` 1000) `div` 10 = 0)%N as ->
    by (rewrite N.Div0.div_div; apply N.div_small; lia).
  apply pretty_N_go_0.
Qed.

Lemma substring_append_suffix (p s : string) :
  String.substring (String.length p) (String.length s) (p +:+ s) = s.
Proof.
  induction p as [|c p IH]; [|exact IH].
  change ("" +:+ s) with s. change (String.length "") with 0%nat.
  induction s as [|c s IH]; [done|].
  cbn. by rewrite IH.
Qed.

Lemma slice_append_last (p s : string) (k : Z) :
  0 < k -> len s = k -> slice (p +:+ s) (- k) = s.
Proof.
  intros Hk Hs. unfold slice. rewrite len_append.
  assert ((- k <? 0) = true) as -> by lia. unfold len in *.
  replace (Z.to_nat _) with (String.length p) by lia.
  replace (Z.to_nat _) with (String.length s) by lia.
  apply substring_append_suffix.
Qed.

Lemma Number_toString_year (year : Z) :
  1000 <= year <= 9999 ->
  Number_toString year = last_four (Z.to_N year).
Proof.
  intros Hy. destruct year as [|p|p]; [lia| |lia].
  unfold Number_toString, pretty, pretty_Z, pretty, pretty_positive.
  change (Z.to_N (Z.pos p)) with (N.pos p).
  apply pretty_four_digits. lia.
Qed.

Lemma timestamp_last_four (millis : Z) :
  1000 <= millis ->
  slice (Number_toString millis) (-4) = last_four (Z.to_N millis).
Proof.
  intros Hm. destruct millis as [|p|p]; [lia| |lia].
  unfold Number_toString, pretty, pretty_Z, pretty, pretty_positive.
  change (Z.to_N (Z.pos p)) with (N.pos p).
  destruct (pretty_ends_in_last_four (N.pos p) ltac:(lia)) as [q ->].
  by apply (slice_append_last q _ 4).
Qed.

Lemma is_alnum_upper_char (c : ascii) :
  is_alnum c = true -> is_alnum (upper_char c) = true.
Proof. destruct c as [[] [] [] [] [] [] [] []]; by vm_compute. Qed.

Lemma all_alnum_toUpperCase (s : string) :
  all_chars is_alnum s = true -> all_chars is_alnum (toUpperCase s) = true.
Proof.
  induction s as [|c s IH]; [done|]. cbn. rewrite !andb_true_iff.
  intros [Hc Hs]. split; [by apply is_alnum_upper_char|by apply IH].
Qed.

Lemma is_upper_alnum_upper_char (c : ascii) :
  is_alnum c = true -> is_upper_alnum (upper_char c) = true.
Proof. destruct c as [[] [] [] [] [] [] [] []]; by vm_compute. Qed.

Lemma all_upper_alnum_toUpperCase (s : string) :
  all_chars is_alnum s = true ->
  all_chars is_upper_alnum (toUpperCase s) = true.
Proof.
  induction s as [|c s IH]; [done|]. cbn. rewrite !andb_true_iff.
  intros [Hc Hs]. split; [by apply is_upper_alnum_upper_char|by apply IH].
Qed.

Lemma is_upper_alnum_is_alnum (c : ascii) :
  is_upper_alnum c = true -> is_alnum c = true.
Proof.
  unfold is_upper_alnum, is_alnum. intros ->. reflexivity.
Qed.

(** With a year of four digits, a timestamp from 1000 on and a rendering of
    the random number with at least six alphanumeric characters after
    "0.", the minted code is of the form WN-<4 digits>-<6 digits or capital
    letters>-<4 digits>: no lower-case letter of the radix-36 rendering is
    left in it.  It is then also of the form the specification gives. *)
Lemma access_code_well_formed (year millis : Z) (random36 : string) :
  1000 <= year <= 9999 ->
  1000 <= millis ->
  8 <= len random36 ->
  all_chars is_alnum (substring random36 2 8) = true ->
  minted_shape (access_code year random36 millis) = true
  /\ well_formed_code (access_code year random36 millis) = true.
Proof.
  intros Hyear Hmillis Hlen Halnum. unfold access_code.
  rewrite (Number_toString_year year Hyear), (timestamp_last_four millis Hmillis).
  apply all_upper_alnum_toUpperCase in Halnum.
  assert (String.length (toUpperCase (substring random36 2 8)) = 6%nat) as Hsix.
  { rewrite length_toUpperCase.
    pose proof (len_substring random36 2 8 ltac:(lia)) as Hs.
    unfold len in *. lia. }
  destruct (toUpperCase (substring random36 2 8))
    as [|r1 [|r2 [|r3 [|r4 [|r5 [|r6 [|r7 rest]]]]]]]; try discriminate.
  cbn in Halnum. rewrite !andb_true_iff in Halnum.
  destruct Halnum as (H1 & H2 & H3 & H4 & H5 & H6 & _).
  unfold minted_shape, well_formed_code, last_four.
  cbv [String.append String.length String.substring Nat.eqb String.eqb
       Ascii.eqb Bool.eqb all_chars andb].
  rewrite !is_digit_pretty_N_char, H1, H2, H3, H4, H5, H6.
  by rewrite (is_upper_alnum_is_alnum r1 H1), (is_upper_alnum_is_alnum r2 H2),
    (is_upper_alnum_is_alnum r3 H3), (is_upper_alnum_is_alnum r4 H4),
    (is_upper_alnum_is_alnum r5 H5), (is_upper_alnum_is_alnum r6 H6).
Qed.

Lemma access_code_well_formed_witness :
  minted_shape (access_code 2025 "0.4fzyo82mvyr" 1748779200123) = true
  /\ well_formed_code (access_code 2025 "0.4fzyo82mvyr" 1748779200123) = true.
Proof.
  apply access_code_well_formed; [lia|lia|by vm_compute|reflexivity].
Defined.

(* ===================================================================== *)
(** ** Further properties of the handlers *)
(* ===================================================================== *)

(** *** The validator, off the beaten path *)

(** A [code] that is absent, empty, null, zero or false is answered 400 as
    missing, by either variant and whatever else the body holds. *)
Theorem validate_code_falsy_is_missing
    (w : world) (req : request) (props : gmap string value) :
  truthy (get (VObj props) "code") = false ->
  serve w (ServerRender.validate_code (set_body req (VObj props) true)) =
    answered 400 {[ "error" := VStr "Access code is required" ]}
  /\ serve w (ServerRailway.validate_code (set_body req (VObj props) true)) =
       answered 400 {[ "error" := VStr "Access code is required" ]}.
Proof.
  intros Hfalsy.
  unfold ServerRender.validate_code, ServerRailway.validate_code, destructure.
  cbn [body set_body nullish mbind prog_bind bind try_catch].
  rewrite Hfalsy. split; reflexivity.
Qed.

Lemma validate_code_falsy_is_missing_witness :
  serve example_world
    (ServerRender.validate_code
       (set_body example_request (VObj {[ "code" := VNull ]}) true)) =
    answered 400 {[ "error" := VStr "Access code is required" ]}.
Proof.
  apply (validate_code_falsy_is_missing example_world example_request
           {[ "code" := VNull ]}).
  reflexivity.
Defined.

(** A [code] that is there but is not a string makes [code.startsWith]
    throw: the first variant leaves the exception to Express, which answers
    500; the second catches it, logs it and answers 500 with a generic
    message.  Neither validates anything. *)
Theorem validate_code_non_string_is_500
    (w : world) (req : request) (others : gmap string value) (code : value) :
  truthy code = true ->
  is_string code = false ->
  let sent := posted req "code" code others in
  exists err,
    serve w (invoke (Sync ServerRender.validate_code) sent) =
      ([ Did (Respond 500 (Text err)) ], Returned tt)
    /\ serve w (invoke (Async ServerRailway.validate_code) sent) =
         ([ Did (ConsoleError [ VStr "Error validating code:"; VStr err ]);
            Did (Respond 500 (Json (VObj
                   {[ "error" := VStr "Internal server error" ]}))) ],
          Returned tt).
Proof.
  intros Htruthy Hstring sent. subst sent.
  exists "TypeError: code.startsWith is not a function".
  unfold invoke, ServerRender.validate_code, ServerRailway.validate_code,
    posted, destructure.
  cbn [body set_body nullish]. rewrite get_insert_eq.
  cbn [mbind prog_bind bind try_catch]. rewrite Htruthy. cbn [negb].
  destruct code; try discriminate; split; reflexivity.
Qed.

Lemma validate_code_non_string_is_500_witness :
  (responses (serve example_world
                (invoke (Sync ServerRender.validate_code)
                   (posted example_request "code" (VNum 1234567890) ∅))).1).*1 =
    [500].
Proof.
  destruct (validate_code_non_string_is_500 example_world example_request ∅
              (VNum 1234567890) eq_refl eq_refl) as (err & Hrender & _).
  by rewrite Hrender.
Defined.

(** *** The checkout, key by key *)

Lemma PRICES_truthy_iff (id : string) :
  truthy (get PRICES id) = true <-> (id ∈ tiers) \/ (id ∈ inherited_keys).
Proof.
  split.
  - intros Ht. destruct (decide (id ∈ tiers)) as [|Hown]; [by left|].
    destruct (decide (id ∈ inherited_keys)) as [|Hinh]; [by right|].
    by rewrite (PRICES_absent id Hown Hinh) in Ht.
  - intros [Hown|Hinh]; [by apply PRICES_own|by apply PRICES_inherited].
Qed.

(** The handler asks the processor for a session exactly for the three keys
    of the table and the twelve property names every object inherits; every
    other string is answered 400, invalid price id, and nothing is asked of
    the processor. *)
Theorem checkout_asks_processor_iff
    (w : world) (req : request) (others : gmap string value) (id : string) :
  let out := serve w (create_checkout_session
                        (posted req "priceId" (VStr id) others)) in
  (processor_calls out.1 <> [] <-> (id ∈ tiers) \/ (id ∈ inherited_keys))
  /\ (out = answered 400 {[ "error" := VStr "Invalid price ID" ]} <->
      (id ∉ tiers) /\ (id ∉ inherited_keys)).
Proof.
  intros out. rewrite <- PRICES_truthy_iff.
  assert ((id ∉ tiers) /\ (id ∉ inherited_keys) <-> truthy (get PRICES id) = false)
    as ->.
  { rewrite <- not_true_iff_false, PRICES_truthy_iff. tauto. }
  destruct (truthy (get PRICES id)) eqn:Hp.
  - destruct (checkout_processor_called w req others id Hp) as [Hcalls Hno400].
    fold out in Hcalls, Hno400. split.
    + rewrite Hcalls. split; [done|discriminate].
    + split; [|discriminate]. intros Hout. exfalso.
      apply (Hno400 (Json (VObj {[ "error" := VStr "Invalid price ID" ]}))).
      rewrite Hout. cbn. in_list.
  - assert (out = answered 400 {[ "error" := VStr "Invalid price ID" ]}) as Hout.
    { subst out. rewrite checkout_answer, Hp. reflexivity. }
    split; [|done]. rewrite Hout. split; [intros []; reflexivity|discriminate].
Qed.

Lemma all_chars_pretty_N_go (x : N) (s : string) :
  all_chars is_decimal s = true ->
  all_chars is_decimal (pretty_N_go x s) = true.
Proof.
  revert s. induction (N.lt_wf_0 x) as [x _ IH]; intros s Hs.
  destruct (decide (x = 0%N)) as [->|Hx]; [by rewrite pretty_N_go_0|].
  rewrite pretty_N_go_step by lia. apply IH; [apply N.div_lt; lia|].
  cbn. rewrite Hs, andb_true_r. unfold is_decimal.
  by rewrite is_digit_pretty_N_char.
Qed.

(** A decimal rendering holds digits and at most a minus sign. *)
Lemma Number_toString_decimal (n : Z) :
  all_chars is_decimal (Number_toString n) = true.
Proof.
  unfold Number_toString, pretty, pretty_Z. destruct n as [|p|p]; [done| |].
  - unfold pretty, pretty_positive, pretty, pretty_N. case_decide; [done|].
    by apply all_chars_pretty_N_go.
  - change ("-" +:+ pretty p) with (String "-" (pretty p)).
    cbn [all_chars]. unfold pretty, pretty_positive, pretty, pretty_N.
    case_decide; [done|]. by rewrite all_chars_pretty_N_go.
Qed.

Lemma to_key_not_a_property (v : value) :
  json_non_string v = true ->
  (to_key v ∉ tiers) /\ (to_key v ∉ inherited_keys).
Proof.
  intros Hv.
  destruct v as [| |b|n| | |props| |]; try discriminate.
  - split; apply (bool_decide_unpack _); vm_compute; exact I.
  - split; apply (bool_decide_unpack _); vm_compute; exact I.
  - destruct b; split; apply (bool_decide_unpack _); vm_compute; exact I.
  - pose proof (Number_toString_decimal n) as Hdec.
    change (to_key (VNum n)) with (Number_toString n).
    split; unfold tiers, inherited_keys, Object_prototype_methods;
      rewrite ?not_elem_of_cons; repeat split;
      try apply not_elem_of_nil; intros Heq; rewrite Heq in Hdec;
      discriminate.
  - split; apply (bool_decide_unpack _); vm_compute; exact I.
Qed.

(** A [priceId] that is missing from the body, or is null, a boolean, an
    integer or an object without a [toString] of its own, is answered 400
    like an unknown key, and nothing is asked of the processor. *)
Theorem checkout_non_string_rejected
    (w : world) (req : request) (props : gmap string value) :
  json_non_string (get (VObj props) "priceId") = true ->
  serve w (create_checkout_session (set_body req (VObj props) true)) =
    answered 400 {[ "error" := VStr "Invalid price ID" ]}.
Proof.
  intros Hv. destruct (to_key_not_a_property _ Hv) as [Hown Hinh].
  unfold create_checkout_session, destructure.
  cbn [body set_body nullish mbind prog_bind bind try_catch].
  by rewrite (PRICES_absent _ Hown Hinh).
Qed.

Lemma checkout_non_string_rejected_witness :
  serve example_world
    (create_checkout_session
       (set_body example_request (VObj {[ "priceId" := VNum 1999 ]}) true)) =
    answered 400 {[ "error" := VStr "Invalid price ID" ]}
  /\ serve example_world
       (create_checkout_session (set_body example_request (VObj ∅) true)) =
       answered 400 {[ "error" := VStr "Invalid price ID" ]}.
Proof.
  split.
  - apply (checkout_non_string_rejected example_world example_request
             {[ "priceId" := VNum 1999 ]}). reflexivity.
  - apply (checkout_non_string_rejected example_world example_request ∅).
    reflexivity.
Defined.

(** When the processor turns the session down, the error is logged on the
    server and the client is answered 500 with a fixed message: the text of
    the processor's error does not reach the client. *)
Theorem checkout_processor_failure
    (w : world) (req : request) (others : gmap string value)
    (id err : string) :
  truthy (get PRICES id) = true ->
  stripe_sessions_create w (params_for w (VStr id) (get PRICES id)) = inl err ->
  serve w (create_checkout_session (posted req "priceId" (VStr id) others)) =
    ([ Did (ProcessEnv "FRONTEND_URL");
       Did (ProcessEnv "FRONTEND_URL");
       Did (SessionsCreate (params_for w (VStr id) (get PRICES id)));
       Did (ConsoleError [VStr "Error creating checkout session:"; VStr err]);
       Did (Respond 500 (Json (VObj
              {[ "error" := VStr "Failed to create checkout session" ]}))) ],
     Returned tt).
Proof.
  intros Hp Herr. rewrite checkout_answer, Hp. cbn [negb].
  by rewrite Herr.
Qed.

Lemma checkout_processor_failure_witness :
  responses (serve (failing_processor "Your card was declined." example_world)
               (create_checkout_session
                  (posted example_request "priceId" (VStr "complete") ∅))).1 =
    [(500, Json (VObj {[ "error" := VStr "Failed to create checkout session" ]}))].
Proof.
  rewrite (checkout_processor_failure
             (failing_processor "Your card was declined." example_world)
             example_request ∅ "complete" "Your card was declined."
             eq_refl eq_refl).
  reflexivity.
Defined.

(** The session the processor is asked for sends the customer back to
    [FRONTEND_URL], or to https://ai-wedding.appverta.app when the variable
    is unset or empty, and carries the price id in its metadata. *)
Theorem checkout_redirects
    (w : world) (req : request) (others : gmap string value) (id : string) :
  truthy (get PRICES id) = true ->
  process_env w "FRONTEND_URL" = VUndefined
    \/ (exists url, process_env w "FRONTEND_URL" = VStr url) ->
  exists params,
    processor_calls
      (serve w (create_checkout_session
                  (posted req "priceId" (VStr id) others))).1 = [params]
    /\ success_url params =
         frontend_base w +:+ "?success=true&session_id={CHECKOUT_SESSION_ID}"
    /\ cancel_url params = frontend_base w +:+ "?canceled=true"
    /\ mode params = "payment"
    /\ payment_method_types params = ["card"]
    /\ metadata_priceId params = VStr id.
Proof.
  intros Hp Henv. exists (params_for w (VStr id) (get PRICES id)).
  destruct (checkout_processor_called w req others id Hp) as [Hcalls _].
  split; [exact Hcalls|].
  assert (to_string (or_else (process_env w "FRONTEND_URL")
                             (VStr "https://ai-wedding.appverta.app")) =
          frontend_base w) as Hbase.
  { unfold frontend_base. destruct Henv as [->|[url ->]]; [done|].
    unfold or_else. cbn [truthy]. by destruct (String.eqb url ""). }
  unfold params_for. cbn [success_url cancel_url mode payment_method_types
                          metadata_priceId].
  rewrite Hbase. done.
Qed.

Lemma checkout_redirects_witness :
  exists params,
    processor_calls
      (serve (with_frontend "https://wedding.abverda.com" example_world)
         (create_checkout_session
            (posted example_request "priceId" (VStr "basic") ∅))).1 = [params]
    /\ success_url params =
         "https://wedding.abverda.com?success=true&session_id={CHECKOUT_SESSION_ID}"
    /\ cancel_url params = "https://wedding.abverda.com?canceled=true".
Proof.
  destruct (checkout_redirects
              (with_frontend "https://wedding.abverda.com" example_world)
              example_request ∅ "basic" eq_refl)
    as (params & Hcalls & Hsuccess & Hcancel & _).
  - right. by eexists.
  - exists params. split; [exact Hcalls|]. split; [exact Hsuccess|exact Hcancel].
Defined.

(** *** The webhook, its log and its body *)

Lemma webhook_raw_body_reaches_verifier_witness :
  verifier_payloads
    (serve (accepting_world completed_event example_world)
       (dispatch ServerRender.app
          (Wire.incoming "POST" "/api/webhook"
             {[ "content-type" := "application/json; charset=utf-8" ]}
             example_text))).1 =
    [VBuffer example_text].
Proof.
  destruct (webhook_raw_body_reaches_verifier
              (accepting_world completed_event example_world)
              {[ "content-type" := "application/json; charset=utf-8" ]}
              example_text "application/json; charset=utf-8")
    as [Hpayload _];
    [apply lookup_singleton_eq|unfold json_content_types; in_list
    |by apply lookup_singleton_ne|by vm_compute|].
  exact Hpayload.
Defined.

(** The two values of the last log line are never empty or undefined: a
    session without [customer_details] (or with a null one, or an empty
    email) is logged with 'No email provided', one without
    [metadata.packageType] with 'Unknown package', and a non-empty email or
    package type is logged as it is. *)
Theorem webhook_log_defaults (session : gmap string value) :
  truthy (ServerRender.customerEmail_of (VObj session)) = true
  /\ truthy (ServerRender.packageType_of (VObj session)) = true
  /\ (truthy (get_opt (get (VObj session) "customer_details") "email") = false ->
      ServerRender.customerEmail_of (VObj session) = VStr "No email provided")
  /\ (truthy (get_opt (get (VObj session) "metadata") "packageType") = false ->
      ServerRender.packageType_of (VObj session) = VStr "Unknown package")
  /\ (forall details email,
        session !! "customer_details" = Some (VObj details) ->
        details !! "email" = Some (VStr email) -> email <> "" ->
        ServerRender.customerEmail_of (VObj session) = VStr email).
Proof.
  unfold ServerRender.customerEmail_of, ServerRender.packageType_of, or_else.
  repeat split.
  - by destruct (truthy (get_opt _ "email")) eqn:He.
  - by destruct (truthy (get_opt _ "packageType")) eqn:Hp.
  - by intros ->.
  - by intros ->.
  - intros details email Hd He Hne.
    assert (get (VObj session) "customer_details" = VObj details) as ->
      by (unfold get; by rewrite Hd).
    assert (get_opt (VObj details) "email" = VStr email) as ->
      by (unfold get_opt, get; cbn [nullish]; by rewrite He).
    cbn [truthy]. apply String.eqb_neq in Hne. by rewrite Hne.
Qed.

Lemma webhook_log_defaults_witness :
  ServerRender.customerEmail_of (VObj {[ "id" := VStr "cs_test_a1" ]}) =
    VStr "No email provided"
  /\ ServerRender.customerEmail_of
       (VObj {[ "customer_details" :=
                  VObj {[ "email" := VStr "ada@example.org" ]} ]}) =
     VStr "ada@example.org".
Proof.
  destruct (webhook_log_defaults {[ "id" := VStr "cs_test_a1" ]})
    as (_ & _ & Hdefault & _).
  destruct (webhook_log_defaults
              {[ "customer_details" :=
                   VObj {[ "email" := VStr "ada@example.org" ]} ]})
    as (_ & _ & _ & _ & Hgiven).
  split.
  - apply Hdefault. reflexivity.
  - apply (Hgiven {[ "email" := VStr "ada@example.org" ]} "ada@example.org");
      [reflexivity|reflexivity|discriminate].
Defined.

(** *** Access codes: case, length and repetition *)

Lemma toUpperCase_append (a b : string) :
  toUpperCase (a +:+ b) = toUpperCase a +:+ toUpperCase b.
Proof.
  induction a as [|c a IH]; [done|].
  change (String c a +:+ b) with (String c (a +:+ b)). cbn [toUpperCase].
  by rewrite IH.
Qed.

Lemma upper_char_idempotent (c : ascii) : upper_char (upper_char c) = upper_char c.
Proof. destruct c as [[] [] [] [] [] [] [] []]; reflexivity. Qed.

Lemma toUpperCase_idempotent (s : string) :
  toUpperCase (toUpperCase s) = toUpperCase s.
Proof.
  induction s as [|c s IH]; [done|]. cbn.
  by rewrite upper_char_idempotent, IH.
Qed.

Lemma upper_char_decimal (c : ascii) : is_decimal c = true -> upper_char c = c.
Proof. destruct c as [[] [] [] [] [] [] [] []]; by vm_compute. Qed.

Lemma toUpperCase_decimal (s : string) :
  all_chars is_decimal s = true -> toUpperCase s = s.
Proof.
  induction s as [|c s IH]; [done|]. cbn. rewrite andb_true_iff.
  intros [Hc Hs]. by rewrite (upper_char_decimal c Hc), IH.
Qed.

Lemma all_chars_substring (p : ascii -> bool) (s : string) (n m : nat) :
  all_chars p s = true -> all_chars p (String.substring n m s) = true.
Proof.
  revert n m. induction s as [|c s IH]; intros [|n] [|m] Hs; cbn; try done.
  all: cbn in Hs; apply andb_true_iff in Hs as [Hc Hs].
  - by rewrite Hc, IH.
  - by apply IH.
  - by apply IH.
Qed.

Lemma is_ascii_upper_char (c : ascii) :
  is_ascii c = true -> is_ascii (upper_char c) = true.
Proof. destruct c as [[] [] [] [] [] [] [] []]; by vm_compute. Qed.

Lemma all_ascii_toUpperCase (s : string) :
  all_chars is_ascii s = true -> all_chars is_ascii (toUpperCase s) = true.
Proof.
  induction s as [|c s IH]; [done|]. cbn. rewrite !andb_true_iff.
  intros [Hc Hs]. split; [by apply is_ascii_upper_char|by apply IH].
Qed.

Lemma not_lower_upper_char (c : ascii) : not_lower (upper_char c) = true.
Proof. destruct c as [[] [] [] [] [] [] [] []]; reflexivity. Qed.

Lemma all_not_lower_toUpperCase (s : string) :
  all_chars not_lower (toUpperCase s) = true.
Proof.
  induction s as [|c s IH]; [done|]. cbn.
  by rewrite not_lower_upper_char, IH.
Qed.

(** The access-code input upper-cases what is typed.  A code minted from an
    ASCII rendering of the random number, as radix 36 gives, goes through
    it unchanged, whatever the readings it was minted from; and on ASCII
    input the field settles at once: what it holds is ASCII without a
    lower-case letter, of the length typed, and upper-casing it again
    changes nothing. *)
Theorem minted_code_survives_input (year millis : Z) (random36 : string) :
  all_chars is_ascii random36 = true ->
  Analytics.onAccessCodeChange (access_code year random36 millis) =
    access_code year random36 millis
  /\ (forall typed,
        all_chars is_ascii typed = true ->
        Analytics.onAccessCodeChange (Analytics.onAccessCodeChange typed) =
          Analytics.onAccessCodeChange typed
        /\ len (Analytics.onAccessCodeChange typed) = len typed
        /\ all_chars is_ascii (Analytics.onAccessCodeChange typed) = true
        /\ all_chars not_lower (Analytics.onAccessCodeChange typed) = true).
Proof.
  intros _. unfold Analytics.onAccessCodeChange. split.
  - unfold access_code. rewrite !toUpperCase_append, toUpperCase_idempotent.
    rewrite (toUpperCase_decimal (Number_toString year))
      by apply Number_toString_decimal.
    rewrite (toUpperCase_decimal (slice _ _)); [done|].
    unfold slice. apply all_chars_substring, Number_toString_decimal.
  - intros typed Hascii. split; [apply toUpperCase_idempotent|].
    split; [unfold len; by rewrite length_toUpperCase|].
    split; [by apply all_ascii_toUpperCase|apply all_not_lower_toUpperCase].
Qed.

Lemma minted_code_survives_input_witness :
  Analytics.onAccessCodeChange "WN-2025-4FZYO8-0123" = "WN-2025-4FZYO8-0123"
  /\ Analytics.onAccessCodeChange "wn-2025-4fzyo8-0123" = "WN-2025-4FZYO8-0123".
Proof.
  destruct (minted_code_survives_input 2025 1748779200123 "0.4fzyo82mvyr"
              eq_refl) as [Hminted _].
  split; [exact Hminted|reflexivity].
Defined.

Lemma last_four_wraps (x k : N) : last_four (x + 10000 * k) = last_four x.
Proof.
  unfold last_four.
  replace ((x + 10000 * k) `div` 1000)%N with (x `div` 1000 + k * 10)%N
    by (replace (10000 * k)%N with ((k * 10) * 1000)%N by lia;
        by rewrite N.div_add).
  replace ((x + 10000 * k) `div` 100)%N with (x `div` 100 + (k * 10) * 10)%N
    by (replace (10000 * k)%N with (((k * 10) * 10) * 100)%N by lia;
        by rewrite N.div_add).
  replace ((x + 10000 * k) `div` 10)%N with (x `div` 10 + (k * 100) * 10)%N
    by (replace (10000 * k)%N with (((k * 100) * 10) * 10)%N by lia;
        by rewrite N.div_add).
  replace (x + 10000 * k)%N with (x + (k * 1000) * 10)%N by lia.
  by rewrite !N.Div0.mod_add.
Qed.

(** The timestamp part keeps the last four digits of the clock only: from
    the first second on, two draws that agree on the year and on the random
    text, ten seconds or a multiple of it apart, mint the same code. *)
Theorem minted_code_repeats (year millis k : Z) (random36 : string) :
  1000 <= millis -> 0 <= k ->
  access_code year random36 (millis + 10000 * k) =
    access_code year random36 millis.
Proof.
  intros Hm Hk. unfold access_code.
  rewrite (timestamp_last_four millis Hm).
  rewrite (timestamp_last_four (millis + 10000 * k)) by lia.
  replace (Z.to_N (millis + 10000 * k))
    with (Z.to_N millis + 10000 * Z.to_N k)%N by lia.
  by rewrite last_four_wraps.
Qed.

Lemma minted_code_repeats_witness :
  access_code 2025 "0.4fzyo82mvyr" (1748779200123 + 10000 * 6) =
    access_code 2025 "0.4fzyo82mvyr" 1748779200123.
Proof. apply minted_code_repeats; lia. Defined.

(** With a year of four digits a minted code has between 10 and 19
    characters: the random part has at most six and the timestamp part
    between one and four. *)
Theorem minted_code_length (year millis : Z) (random36 : string) :
  1000 <= year <= 9999 ->
  10 <= len (access_code year random36 millis) <= 19
  /\ len (toUpperCase (substring random36 2 8)) <= 6
  /\ 1 <= len (slice (Number_toString millis) (-4)) <= 4.
Proof.
  intros Hyear. rewrite len_access_code.
  assert (len (Number_toString year) = 4) as ->.
  { by rewrite (Number_toString_year year Hyear). }
  assert (len (toUpperCase (substring random36 2 8)) <= 6) as Hr.
  { unfold len at 1. rewrite length_toUpperCase.
    pose proof (len_substring random36 2 8 ltac:(lia)) as Hs.
    unfold len in Hs at 1. lia. }
  pose proof (len_nonneg (toUpperCase (substring random36 2 8))).
  pose proof (len_timestamp_pos millis).
  assert (len (slice (Number_toString millis) (-4)) <= 4)
    by (rewrite (len_slice_last _ 4) by lia; lia).
  lia.
Qed.

Lemma minted_code_length_witness :
  10 <= len (access_code 2025 "0.i" 5) <= 19.
Proof. apply minted_code_length. lia. Defined.

(** *** Requests through the application *)

Lemma validate_code_returns
    (w : world) (req : request) (others : gmap string value) (s : string) :
  (serve w (ServerRender.validate_code (posted req "code" (VStr s) others))).2 =
    Returned tt.
Proof.
  rewrite validate_code_answer.
  destruct (isValid s); [done|]. by destruct (String.eqb s "").
Qed.

Lemma validate_code_returns_railway
    (w : world) (req : request) (others : gmap string value) (s : string) :
  (serve w (ServerRailway.validate_code (posted req "code" (VStr s) others))).2 =
    Returned tt.
Proof.
  rewrite validate_code_format_only_railway.
  destruct (isValid s); [done|]. by destruct (String.eqb s "").
Qed.

Ltac as_posted s others :=
  cbn [bind set_body method path String.eqb Ascii.eqb Bool.eqb andb invoke];
  match goal with
  | |- context [set_body ?r (VObj (<["code" := VStr s]> others)) true] =>
      change (set_body r (VObj (<["code" := VStr s]> others)) true)
        with (posted r "code" (VStr s) others)
  end.

Ltac as_served w :=
  match goal with
  | |- context [run (answer w) ?p] => change (run (answer w) p) with (serve w p)
  end.

(** A JSON request POSTed to /api/validate-code, with a body that is not
    empty, is within the limit of the parser and parses to an object with
    a string [code], gets past the webhook route and the body parser to the
    handler, in either order of registration: the body is parsed once and
    the application sends exactly the one response of the handler, which
    depends on [code] through the format check alone. *)
Theorem validate_code_routed
    (w : world) (text s : string) (others : gmap string value) :
  within_limit text ->
  parse_json w text = Some (VObj (<[ "code" := VStr s ]> others)) ->
  let req := Wire.incoming "POST" "/api/validate-code" json_headers text in
  serve w (dispatch ServerRender.app req) =
    (Did (JSON_parse text) ::
       (serve w (ServerRender.validate_code
                   (posted req "code" (VStr s) others))).1,
     Returned tt)
  /\ serve w (dispatch ServerRailway.app req) =
       (Did (JSON_parse text) ::
          (serve w (ServerRailway.validate_code
                      (posted req "code" (VStr s) others))).1,
        Returned tt)
  /\ responses (serve w (dispatch ServerRender.app req)).1 =
       [ if isValid s
         then (200, Json (VObj
                {[ "valid" := VBool true;
                   "message" := VStr "Access code validated successfully";
                   "code" := VStr s ]}))
         else if String.eqb s ""
         then (400, Json (VObj
                {[ "error" := VStr "Access code is required" ]}))
         else (400, Json (VObj
                {[ "valid" := VBool false;
                   "error" := VStr "Invalid access code format" ]})) ].
Proof.
  intros _ Hparse req.
  assert (serve w (dispatch ServerRender.app req) =
    (Did (JSON_parse text) ::
       (serve w (ServerRender.validate_code
                   (posted req "code" (VStr s) others))).1,
     Returned tt)) as Hrender.
  { subst req. unfold ServerRender.app. route. rewrite Hparse.
    as_posted s others.
    erewrite run_try_catch_returned by apply validate_code_returns.
    as_served w. rewrite !validate_code_answer.
    destruct (isValid s); [reflexivity|]. by destruct (String.eqb s ""). }
  split; [exact Hrender|]. split.
  - subst req. unfold ServerRailway.app. route. rewrite Hparse.
    as_posted s others.
    erewrite run_try_catch_returned by apply validate_code_returns_railway.
    as_served w. rewrite !validate_code_format_only_railway.
    destruct (isValid s); [reflexivity|]. by destruct (String.eqb s "").
  - rewrite Hrender, validate_code_answer. cbn [fst].
    destruct (isValid s); [reflexivity|]. by destruct (String.eqb s "").
Qed.

Lemma validate_code_routed_witness :
  responses
    (serve (parsing_world (VObj {[ "code" := VStr "WN-2025-ABC123-0123" ]})
                          example_world)
       (dispatch ServerRender.app
          (Wire.incoming "POST" "/api/validate-code" json_headers
             "{}"))).1 =
    [(200, Json (VObj
        {[ "valid" := VBool true;
           "message" := VStr "Access code validated successfully";
           "code" := VStr "WN-2025-ABC123-0123" ]}))].
Proof.
  destruct (validate_code_routed
              (parsing_world (VObj {[ "code" := VStr "WN-2025-ABC123-0123" ]})
                             example_world)
              "{}" "WN-2025-ABC123-0123" ∅) as (_ & _ & Hresp);
    [by vm_compute|reflexivity|].
  exact Hresp.
Defined.

(** A request that asks for the health check and carries no JSON is
    answered 200 by either variant, with the time of the server; nothing is
    parsed, verified or asked of the processor. *)
Theorem health_routed (w : world) (hs : gmap string string) (bytes : string) :
  hs !! "content-type" = None ->
  let req := Wire.incoming "GET" "/api/health" hs bytes in
  serve w (dispatch ServerRender.app req) =
    ([ Did NewDate_toISOString;
       Did (ProcessEnv "NODE_ENV");
       Did (Respond 200 (Json (VObj
              {[ "status" := VStr "OK";
                 "timestamp" := VStr (toISOString w);
                 "message" :=
                   VStr "Wedding Newspaper API is running on Render!";
                 "environment" :=
                   or_else (process_env w "NODE_ENV") (VStr "development") ]}))) ],
     Returned tt)
  /\ serve w (dispatch ServerRailway.app req) =
       ([ Did NewDate_toISOString;
          Did (Respond 200 (Json (VObj
                 {[ "status" := VStr "OK";
                    "timestamp" := VStr (toISOString w);
                    "message" :=
                      VStr "Wedding Newspaper API is running on Railway!" ]}))) ],
        Returned tt).
Proof.
  intros Hct req. subst req.
  unfold ServerRender.app, ServerRailway.app, Wire.incoming.
  cbn [dispatch cors method path String.eqb Ascii.eqb Bool.eqb andb
       mbind prog_bind bind through express_json parsed].
  unfold is_json, default_body. cbn [set_body headers]. rewrite Hct.
  split; reflexivity.
Qed.

Lemma health_routed_witness :
  responses (serve example_world
               (dispatch ServerRailway.app
                  (Wire.incoming "GET" "/api/health" ∅ ""))).1 =
    [(200, Json (VObj
        {[ "status" := VStr "OK";
           "timestamp" := VStr "2025-06-01T12:00:00.000Z";
           "message" := VStr "Wedding Newspaper API is running on Railway!" ]}))].
Proof.
  destruct (health_routed example_world ∅ "") as [_ Hrailway];
    [apply lookup_empty|].
  by rewrite Hrailway.
Defined.

(** *** What counts as a blank field *)

Lemma all_chars_trimStart (s : string) :
  all_chars is_space (trimStart s) = all_chars is_space s.
Proof.
  induction s as [|c s IH]; [done|].
  cbn [trimStart]. destruct (is_space c) eqn:Hc; [|done].
  cbn [all_chars]. by rewrite Hc.
Qed.

Lemma trimStart_empty (s : string) :
  trimStart s = "" <-> all_chars is_space s = true.
Proof.
  induction s as [|c s IH]; [done|].
  cbn [trimStart all_chars]. destruct (is_space c); [exact IH|done].
Qed.

Lemma length_rev_app (a b : string) :
  String.length (String.rev_app a b) = (String.length a + String.length b)%nat.
Proof.
  revert b. induction a as [|c a IH]; intros b; [done|].
  cbn [String.rev_app String.length]. rewrite IH. cbn [String.length]. lia.
Qed.

Lemma all_chars_rev_app (p : ascii -> bool) (a b : string) :
  all_chars p (String.rev_app a b) = all_chars p a && all_chars p b.
Proof.
  revert b. induction a as [|c a IH]; intros b; [done|].
  cbn [String.rev_app all_chars]. rewrite IH. cbn [all_chars].
  by destruct (p c), (all_chars p a), (all_chars p b).
Qed.

Lemma rev_empty (s : string) : String.rev s = "" -> s = "".
Proof.
  intros H. apply (f_equal String.length) in H.
  unfold String.rev in H. rewrite length_rev_app in H.
  destruct s; [done|]. cbn in H. lia.
Qed.

(** [s.trim()] is empty exactly when [s] is white space throughout. *)
Lemma trim_empty (s : string) :
  trim s = "" <-> all_chars is_space s = true.
Proof.
  unfold trim, trimEnd. split.
  - intros H. apply rev_empty, trimStart_empty in H.
    unfold String.rev in H. rewrite all_chars_rev_app in H.
    apply andb_true_iff in H as [H _]. by rewrite all_chars_trimStart in H.
  - intros H. apply trimStart_empty in H. by rewrite H.
Qed.

Lemma trim_is_blank (s : string) :
  String.eqb (trim s) "" = all_chars is_space s.
Proof.
  destruct (String.eqb_spec (trim s) "") as [H|H].
  - symmetry. by apply trim_empty.
  - destruct (all_chars is_space s) eqn:Hs; [|done].
    by apply trim_empty in Hs.
Qed.

Ltac settle_membership :=
  cbn [fmap list_fmap fst]; split; intros ?H;
  first [ reflexivity | discriminate
        | by in_list
        | exfalso; rewrite ?elem_of_cons, elem_of_nil in H;
          intuition discriminate ].

(** The fields reported missing are those of the five required ones that
    hold nothing but white space, in the order of the source; a field the
    form does not require is never reported, and none is missing exactly
    when every required field holds something else. *)
Theorem missingFields_blank (fd : App.FormData) :
  App.missingFields fd `sublist_of` required_names
  /\ (forall name read, (name, read) ∈ App.requiredFields ->
        name ∈ App.missingFields fd <-> all_chars is_space (read fd) = true)
  /\ (App.missingFields fd = [] <-> all_filled fd).
Proof.
  unfold App.missingFields, App.requiredFields, required_names.
  cbn [List.filter snd]. rewrite !trim_is_blank.
  split; [|split].
  - destruct (all_chars is_space (App.bride fd)),
             (all_chars is_space (App.groom fd)),
             (all_chars is_space (App.weddingDate fd)),
             (all_chars is_space (App.venue fd)),
             (all_chars is_space (App.howMet fd));
      cbn [fmap list_fmap fst];
      repeat first [ apply sublist_nil | apply sublist_skip
                   | apply sublist_cons ].
  - intros name read Hin.
    rewrite !elem_of_cons, elem_of_nil in Hin.
    destruct Hin as [[= -> ->]|[[= -> ->]|[[= -> ->]|[[= -> ->]|[[= -> ->]|[]]]]]];
      destruct (all_chars is_space (App.bride fd)),
               (all_chars is_space (App.groom fd)),
               (all_chars is_space (App.weddingDate fd)),
               (all_chars is_space (App.venue fd)),
               (all_chars is_space (App.howMet fd));
      settle_membership.
  - unfold all_filled. rewrite <- !String.eqb_neq, !trim_is_blank.
    destruct (all_chars is_space (App.bride fd)),
             (all_chars is_space (App.groom fd)),
             (all_chars is_space (App.weddingDate fd)),
             (all_chars is_space (App.venue fd)),
             (all_chars is_space (App.howMet fd));
      cbn [fmap list_fmap fst]; split; intros H;
      first [ discriminate | reflexivity | by repeat split
            | by destruct H as (? & ? & ? & ? & ?) ].
Qed.

(** *** The wizard on every input *)

(** With a required field left blank the submission goes nowhere: the
    handler tracks the validation error, names the blank fields in one
    alert and returns.  No request is sent, the stage is not assigned and
    [isGenerating] is not touched. *)
Theorem form_submit_missing_field
    (b : App.browser) (fd : App.FormData) (accessCode : string) :
  App.missingFields fd <> [] ->
  App.handle b (App.handleFormSubmit fd accessCode) =
    ([ Did App.PreventDefault;
       Did (App.TrackEvent "form_validation_error");
       Did (App.Alert ("Please fill in all required fields: " +:+
                       App.join ", " (App.missingFields fd))) ],
     Returned tt).
Proof.
  intros Hmissing. unfold App.handle, App.handleFormSubmit.
  destruct (App.missingFields fd) as [|name rest]; [done|].
  reflexivity.
Qed.

Lemma form_submit_missing_field_witness :
  App.alerts (App.handle example_browser
                (App.handleFormSubmit blank_form example_code)).1 =
    ["Please fill in all required fields: groom, venue"]
  /\ App.requests (App.handle example_browser
                     (App.handleFormSubmit blank_form example_code)).1 = [].
Proof.
  rewrite (form_submit_missing_field example_browser blank_form example_code)
    by (vm_compute; discriminate).
  split; reflexivity.
Defined.

(** Whatever the form holds and whatever the network does, a submission
    ends in one of three ways and the handler returns: nothing is sent and
    one alert names the blank fields; or one request is sent and the stage
    goes to 'generating' and back to 'form' with one alert; or one request
    is sent and the stage goes to 'generating' and on to 'complete' with no
    alert.  On both paths that send a request [isGenerating] is set once and
    reset once, and the reset is the last thing the handler does. *)
Theorem form_submit_outcomes
    (b : App.browser) (fd : App.FormData) (accessCode : string) :
  let out := App.handle b (App.handleFormSubmit fd accessCode) in
  out.2 = Returned tt
  /\ ((App.requests out.1 = [] /\ App.steps out.1 = []
       /\ generating_writes out.1 = [] /\ length (App.alerts out.1) = 1%nat)
      \/ (length (App.requests out.1) = 1%nat
          /\ App.steps out.1 = [App.generating; App.form]
          /\ generating_writes out.1 = [true; false]
          /\ List.last out.1 (Did App.PreventDefault) =
               Did (App.SetIsGenerating false)
          /\ App.alerts out.1 =
               ["Error generating newspaper. Please try again."])
      \/ (length (App.requests out.1) = 1%nat
          /\ App.steps out.1 = [App.generating; App.complete]
          /\ generating_writes out.1 = [true; false]
          /\ List.last out.1 (Did App.PreventDefault) =
               Did (App.SetIsGenerating false)
          /\ App.alerts out.1 = [])).
Proof.
  intros out. subst out. unfold App.handle, App.handleFormSubmit.
  destruct (App.missingFields fd) as [|name rest].
  - unfold try_catch_finally, App.response_json.
    cbn [length Nat.ltb Nat.leb run mbind prog_bind bind try_catch call
         call_or_throw App.answer fst snd App.trackEvent App.setIsGenerating
         App.setCurrentStep].
    destruct (App.fetch b _ _) as [err|r].
    { split; [reflexivity|]. right. left. repeat split; reflexivity. }
    cbn [bind try_catch]. destruct (App.ok r).
    + destruct (App.json r).
      * split; [reflexivity|]. right. right. repeat split; reflexivity.
      * split; [reflexivity|]. right. left. repeat split; reflexivity.
    + split; [reflexivity|]. right. left. repeat split; reflexivity.
  - split; [reflexivity|]. left. repeat split; reflexivity.
Qed.

(** The access step, whatever is typed and whatever the network does: one
    request, and the handler returns.  The stage goes to 'form', and
    [isValidCode] to true, exactly when the response is ok, a status from
    200 to 299; the body of the response is not read.  Any other response
    leaves the stage alone and alerts that the code is invalid, and a
    request that fails alerts a network error. *)
Theorem access_submit_outcomes (b : App.browser) (accessCode : string) :
  let text := App.stringify b (access_document accessCode) in
  let out := App.handle b (App.handleAccessCodeSubmit accessCode) in
  out.2 = Returned tt
  /\ App.requests out.1 = [(App.validate_code_url, App.post_json text)]
  /\ match App.fetch b App.validate_code_url (App.post_json text) with
     | inr r =>
         if (200 <=? App.status r) && (App.status r <=? 299)
         then App.steps out.1 = [App.form] /\ validations out.1 = [true]
              /\ App.alerts out.1 = []
         else App.steps out.1 = [] /\ validations out.1 = []
              /\ App.alerts out.1 =
                   ["Invalid access code. Please check your code and try again."]
     | inl _ =>
         App.steps out.1 = [] /\ validations out.1 = []
         /\ App.alerts out.1 = ["Network error. Please try again."]
     end.
Proof.
  intros text out. subst out.
  unfold App.handle, App.handleAccessCodeSubmit.
  cbn [run mbind prog_bind bind try_catch call call_or_throw App.answer
       fst snd App.trackEvent].
  change (VObj {[ "accessCode" := VStr accessCode ]})
    with (access_document accessCode).
  change (App.stringify b (access_document accessCode)) with text.
  destruct (App.fetch b App.validate_code_url (App.post_json text))
    as [err|r]; [repeat split; reflexivity|].
  cbn [bind try_catch]. unfold App.ok.
  destruct ((200 <=? App.status r) && (App.status r <=? 299));
    repeat split; reflexivity.
Qed.

(** *** Scroll depth *)

(** What one scroll event reports and marks, for any marks found. *)
Lemma handleScroll_filter
    (p : Analytics.number) (marks : Analytics.scroll_marks) :
  (Analytics.handleScroll p marks).1 =
    List.filter
      (fun k => Analytics.at_least p k && negb (marked k marks)) depths
  /\ marked 25 (Analytics.handleScroll p marks).2 =
       marked 25 marks || Analytics.at_least p 25
  /\ marked 50 (Analytics.handleScroll p marks).2 =
       marked 50 marks || Analytics.at_least p 50
  /\ marked 75 (Analytics.handleScroll p marks).2 =
       marked 75 marks || Analytics.at_least p 75.
Proof.
  destruct marks as [m25 m50 m75].
  unfold Analytics.handleScroll, depths, marked.
  cbn [List.filter Z.eqb Pos.eqb Analytics.scrollTracked25
       Analytics.scrollTracked50 Analytics.scrollTracked75 fst snd].
  destruct (Analytics.at_least p 25), (Analytics.at_least p 50),
           (Analytics.at_least p 75), m25, m50, m75;
    repeat split; reflexivity.
Qed.

(** One scroll event reports, in rising order, the depths it has reached
    that are not yet marked, and marks them, so that the same event again
    reports nothing.  A percentage that is not a number (a page with nothing
    to scroll, at its top) reports nothing and marks nothing, and so does
    minus infinity; plus infinity (such a page, scrolled down) reports every
    depth not yet marked. *)
Theorem scroll_event_reports
    (p : Analytics.number) (marks : Analytics.scroll_marks) :
  let r := Analytics.handleScroll p marks in
  r.1 = List.filter
          (fun k => Analytics.at_least p k && negb (marked k marks)) depths
  /\ (forall k, k ∈ depths ->
        marked k r.2 = marked k marks || Analytics.at_least p k)
  /\ (Analytics.handleScroll p r.2).1 = []
  /\ Analytics.handleScroll Analytics.NaN marks = ([], marks)
  /\ Analytics.handleScroll Analytics.MinusInfinity marks = ([], marks)
  /\ (Analytics.handleScroll Analytics.PlusInfinity marks).1 =
       List.filter (fun k => negb (marked k marks)) depths.
Proof.
  intros r. subst r.
  destruct (handleScroll_filter p marks) as (Hl & H25 & H50 & H75).
  split; [exact Hl|]. split; [|split; [|split; [|split]]].
  - intros k Hk. unfold depths in Hk.
    rewrite !elem_of_cons, elem_of_nil in Hk.
    destruct Hk as [->|[->|[->|[]]]]; assumption.
  - destruct (handleScroll_filter p (Analytics.handleScroll p marks).2)
      as (Hl' & _).
    rewrite Hl'. unfold depths. cbn [List.filter]. rewrite H25, H50, H75.
    by destruct (Analytics.at_least p 25), (Analytics.at_least p 50),
                (Analytics.at_least p 75), (marked 25 marks),
                (marked 50 marks), (marked 75 marks).
  - by destruct marks.
  - by destruct marks.
  - destruct (handleScroll_filter Analytics.PlusInfinity marks) as (Hl' & _).
    rewrite Hl'. reflexivity.
Qed.

Lemma at_least_rises (p : Analytics.number) (j k : Z) :
  j <= k -> Analytics.at_least p k = true -> Analytics.at_least p j = true.
Proof.
  destruct p as [n| | |]; cbn [Analytics.at_least]; try done.
  rewrite !Z.leb_le. lia.
Qed.

Lemma reached_rises (ps : list Analytics.number) (j k : Z) :
  j <= k -> reached ps k = true -> reached ps j = true.
Proof.
  intros Hjk. unfold reached. rewrite !existsb_exists.
  intros (p & Hp & Hk). exists p. split; [done|].
  by apply (at_least_rises p j k).
Qed.

(** The marks rise with the depth: a deeper mark implies the shallower
    ones.  The marks of a fresh page do, and scrolling keeps it so. *)
Lemma scrolling_from_rising_marks
    (ps : list Analytics.number) (marks : Analytics.scroll_marks) :
  (marked 50 marks = true -> marked 25 marks = true) ->
  (marked 75 marks = true -> marked 50 marks = true) ->
  let r := Analytics.scrolling ps marks in
  r.1 = List.filter (fun k => reached ps k && negb (marked k marks)) depths
  /\ marked 25 r.2 = marked 25 marks || reached ps 25
  /\ marked 50 r.2 = marked 50 marks || reached ps 50
  /\ marked 75 r.2 = marked 75 marks || reached ps 75.
Proof.
  revert marks. induction ps as [|p ps IH]; intros marks H50 H75 r; subst r.
  { cbn [Analytics.scrolling reached existsb fst snd].
    unfold depths. cbn [List.filter andb]. by rewrite !orb_false_r. }
  cbn [Analytics.scrolling fst snd].
  destruct (handleScroll_filter p marks) as (Hl & H25' & H50' & H75').
  pose proof (at_least_rises p 25 50 ltac:(lia)) as Ha50.
  pose proof (at_least_rises p 50 75 ltac:(lia)) as Ha75.
  pose proof (reached_rises ps 25 50 ltac:(lia)) as He50.
  pose proof (reached_rises ps 50 75 ltac:(lia)) as He75.
  destruct (IH (Analytics.handleScroll p marks).2) as (IHl & IH25 & IH50 & IH75).
  { rewrite H25', H50'.
    destruct (marked 50 marks), (marked 25 marks), (Analytics.at_least p 50),
             (Analytics.at_least p 25); auto. }
  { rewrite H50', H75'.
    destruct (marked 75 marks), (marked 50 marks), (Analytics.at_least p 75),
             (Analytics.at_least p 50); auto. }
  rewrite Hl, IHl, IH25, IH50, IH75. clear IH Hl IHl IH25 IH50 IH75.
  unfold depths. cbn [List.filter reached existsb].
  fold (reached ps 25). fold (reached ps 50). fold (reached ps 75).
  rewrite !H25', !H50', !H75'. clear H25' H50' H75'.
  destruct (marked 25 marks), (marked 50 marks), (marked 75 marks);
    try (by (specialize (H50 eq_refl) || specialize (H75 eq_refl)));
    destruct (Analytics.at_least p 25), (Analytics.at_least p 50),
             (Analytics.at_least p 75);
    try (by (specialize (Ha50 eq_refl) || specialize (Ha75 eq_refl)));
    destruct (reached ps 25), (reached ps 50), (reached ps 75);
    try (by (specialize (He50 eq_refl) || specialize (He75 eq_refl)));
    repeat split; reflexivity.
Qed.

(** Over any series of scroll events on a fresh page, each of the depths
    25, 50 and 75 is reported once if some event reached it and never
    otherwise, however often the page is scrolled up and down; the depths
    come out in rising order, and a depth stays marked once reported. *)
Theorem scroll_depth_reported_once (ps : list Analytics.number) :
  let r := Analytics.scrolling ps Analytics.unmarked in
  r.1 = List.filter (reached ps) depths
  /\ NoDup r.1
  /\ (forall k, k ∈ depths -> marked k r.2 = reached ps k)
  /\ (forall qs, (Analytics.scrolling qs r.2).1 =
        List.filter (fun k => reached qs k && negb (reached ps k)) depths).
Proof.
  intros r. subst r.
  destruct (scrolling_from_rising_marks ps Analytics.unmarked)
    as (Hl & H25 & H50 & H75); [done|done|].
  cbn zeta in Hl, H25, H50, H75.
  assert ((Analytics.scrolling ps Analytics.unmarked).1 =
          List.filter (reached ps) depths) as Hlist.
  { rewrite Hl. unfold depths, marked, Analytics.unmarked.
    cbn [List.filter Z.eqb Pos.eqb Analytics.scrollTracked25
         Analytics.scrollTracked50 Analytics.scrollTracked75 negb].
    by rewrite !andb_true_r. }
  change (marked 25 Analytics.unmarked) with false in H25.
  change (marked 50 Analytics.unmarked) with false in H50.
  change (marked 75 Analytics.unmarked) with false in H75.
  cbn [orb] in H25, H50, H75.
  split; [exact Hlist|]. split; [|split].
  - rewrite Hlist. unfold depths. cbn [List.filter].
    destruct (reached ps 25), (reached ps 50), (reached ps 75);
      repeat (apply NoDup_cons; split; [not_in_list|]); apply NoDup_nil_2.
  - intros k Hk. unfold depths in Hk.
    rewrite !elem_of_cons, elem_of_nil in Hk.
    destruct Hk as [->|[->|[->|[]]]]; assumption.
  - intros qs.
    destruct (scrolling_from_rising_marks qs
                (Analytics.scrolling ps Analytics.unmarked).2)
      as (Hq & _).
    + rewrite H25, H50. apply reached_rises. lia.
    + rewrite H50, H75. apply reached_rises. lia.
    + cbn zeta in Hq. rewrite Hq. unfold depths. cbn [List.filter].
      by rewrite H25, H50, H75.
Qed.

(** *** The analytics layer and the typed input *)

(** Without a [dataLayer] on the page an event is only logged.  With one,
    exactly one entry is appended and the earlier entries are left as they
    were; the entry carries the time of the call under [timestamp] even when
    the parameters have a [timestamp] of their own, while an [event] among
    the parameters replaces the name of the event; every other parameter is
    carried over. *)
Theorem trackEvent_entry
    (timestamp eventName : string) (parameters : gmap string value)
    (entries : list (gmap string value)) :
  Analytics.trackEvent timestamp eventName parameters None =
    (None, [VStr "Analytics Event:"; VStr eventName; VObj parameters])
  /\ exists e,
       Analytics.trackEvent timestamp eventName parameters (Some entries) =
         (Some (entries ++ [e]),
          [VStr "Analytics Event:"; VStr eventName; VObj parameters])
       /\ e !! "timestamp" = Some (VStr timestamp)
       /\ e !! "event" =
            Some (default (VStr eventName) (parameters !! "event"))
       /\ (forall k, k <> "timestamp" -> k <> "event" ->
             e !! k = parameters !! k).
Proof.
  split; [reflexivity|].
  exists (Analytics.entry timestamp eventName parameters).
  split; [reflexivity|]. unfold Analytics.entry. split; [|split].
  - apply lookup_insert_eq.
  - rewrite lookup_insert_ne by done. rewrite lookup_union.
    rewrite lookup_singleton_eq.
    by destruct (parameters !! "event").
  - intros k Ht He. rewrite lookup_insert_ne by done.
    rewrite lookup_union, lookup_singleton_ne by done.
    by destruct (parameters !! k).
Qed.

(** The form-progress event: [step] and [form_name] are defaults that the
    caller's data replace, since the data are spread after them. *)
Theorem trackFormProgress_entry
    (timestamp : string) (step : value) (data : gmap string value)
    (entries : list (gmap string value)) :
  exists e,
    (Analytics.trackFormProgress timestamp step data (Some entries)).1 =
      Some (entries ++ [e])
    /\ e !! "timestamp" = Some (VStr timestamp)
    /\ e !! "event" = Some (default (VStr "form_progress") (data !! "event"))
    /\ e !! "step" = Some (default step (data !! "step"))
    /\ e !! "form_name" =
         Some (default (VStr "wedding_details") (data !! "form_name")).
Proof.
  unfold Analytics.trackFormProgress, Analytics.trackEvent, Analytics.entry.
  eexists. split; [reflexivity|]. split; [apply lookup_insert_eq|].
  rewrite !lookup_insert_ne by done.
  rewrite !lookup_union, !lookup_insert_ne, !lookup_insert_eq by done.
  rewrite lookup_insert_ne, !lookup_singleton_eq, lookup_singleton_ne by done.
  repeat split.
  - by destruct (data !! "event").
  - by destruct (data !! "step").
  - by destruct (data !! "form_name").
Qed.

(** Typing into a field stores the value under the field's name and leaves
    the other fields as they were, and [form_field_complete] is tracked
    exactly when the value holds something other than white space: white
    space alone is stored and not tracked. *)
Theorem handleInputChange_tracks
    (field typed : string) (prev : gmap string value) :
  let r := Analytics.handleInputChange field typed in
  r.1 prev !! field = Some (VStr typed)
  /\ (forall k, k <> field -> r.1 prev !! k = prev !! k)
  /\ r.2 = (if all_chars is_space typed then [] else ["form_field_complete"]).
Proof.
  intros r. subst r. unfold Analytics.handleInputChange. cbn [fst snd].
  split; [apply lookup_insert_eq|]. split.
  - intros k Hk. by apply lookup_insert_ne.
  - rewrite <- trim_is_blank.
    destruct (String.eqb_spec (trim typed) "") as [->|Hne]; [done|].
    unfold len. destruct (trim typed); [done|]. reflexivity.
Qed.
